(** * Derek Dashboard: the supervisory core of [main.py]

    A shallow embedding of the orchestrator in [main.py]: the module-level
    core initialization, [DerekDashboard] ([__init__], [start],
    [process_message], [stop]) and the interaction loop of [main].

    The collaborators (the reasoner [Derek], the memory bridge, the voice,
    the speech recogniser, the clock) live outside this file of the
    repository.  They are modelled as oracles: records of functions that
    receive the history of the run so far and answer with a value or with
    a raised exception.  Every call on a collaborator is recorded as an
    event, so that "was attempted", "was skipped" and "was not touched"
    are statements about the trace. *)

From Stdlib Require Import Ascii String QArith.
From stdpp Require Import base option list gmap strings.

Local Open Scope stdpp_scope.

(** ** Python strings

    A [str] is modelled as a Rocq [string]; one [ascii] stands for one code
    point below 256, which is the fragment on which the functions below
    agree with Python's. *)

Module Py.

(** [c.isspace()] for a code point below 256. *)
Definition isspace (c : ascii) : bool :=
  let n := nat_of_ascii c in
  ((9 <=? n) && (n <=? 13)) || ((28 <=? n) && (n <=? 32))
  || (n =? 133) || (n =? 160).

(** [c.lower()] for a code point below 256: A-Z and the Latin-1 capitals. *)
Definition lower_char (c : ascii) : ascii :=
  let n := nat_of_ascii c in
  if ((65 <=? n) && (n <=? 90))
     || ((192 <=? n) && (n <=? 222) && negb (n =? 215))
  then ascii_of_nat (n + 32) else c.

(** [s.lower()] *)
Fixpoint lower (s : string) : string :=
  match s with
  | EmptyString => EmptyString
  | String c r => String (lower_char c) (lower r)
  end.

(** [s.lstrip()] *)
Fixpoint lstrip (s : string) : string :=
  match s with
  | EmptyString => EmptyString
  | String c r => if isspace c then lstrip r else s
  end.

(** [s.rstrip()] *)
Fixpoint rstrip (s : string) : string :=
  match s with
  | EmptyString => EmptyString
  | String c r =>
      match rstrip r with
      | EmptyString => if isspace c then EmptyString else String c EmptyString
      | r' => String c r'
      end
  end.

(** The strings made of white space only (the empty one included). *)
Fixpoint blank (s : string) : bool :=
  match s with
  | EmptyString => true
  | String c r => isspace c && blank r
  end.

(** [s.strip()] *)
Definition strip (s : string) : string := rstrip (lstrip s).

(** [s[:n]] *)
Fixpoint slice_to (n : nat) (s : string) : string :=
  match n, s with
  | S n', String c r => String c (slice_to n' r)
  | _, _ => EmptyString
  end.

(** [s.startswith(p)] *)
Fixpoint startswith (p s : string) : bool :=
  match p, s with
  | EmptyString, _ => true
  | String a p', String b s' => if decide (a = b) then startswith p' s' else false
  | String _ _, EmptyString => false
  end.

(** [needle in hay] *)
Fixpoint contains (needle hay : string) : bool :=
  startswith needle hay ||
  match hay with
  | EmptyString => false
  | String _ r => contains needle r
  end.

(** [s * n] *)
Fixpoint repeat (s : string) (n : nat) : string :=
  match n with
  | O => EmptyString
  | S n' => s +:+ repeat s n'
  end.

(** The line feed, written [\n] in the source. *)
Definition nl : string := String "010"%char EmptyString.

(** [any(p(x) for x in l)] *)
Definition any {A} (p : A -> bool) (l : list A) : bool := existsb p l.

(** *** [datetime] and [isoformat] *)

Record datetime := {
  year : nat; month : nat; day : nat;
  hour : nat; minute : nat; second : nat; microsecond : nat
}.

Definition digit (n : nat) : ascii := ascii_of_nat (48 + n mod 10).

Fixpoint zfill (width n : nat) (acc : string) : string :=
  match width with
  | O => acc
  | S w => zfill w (n / 10) (String (digit n) acc)
  end.

(** [d.isoformat()] of a naive datetime: [YYYY-MM-DDTHH:MM:SS], followed by
    [.ffffff] when the microsecond is not zero. *)
Definition isoformat (d : datetime) : string :=
  zfill 4 (year d) "" +:+ "-" +:+ zfill 2 (month d) "" +:+ "-" +:+
  zfill 2 (day d) "" +:+ "T" +:+ zfill 2 (hour d) "" +:+ ":" +:+
  zfill 2 (minute d) "" +:+ ":" +:+ zfill 2 (second d) "" +:+
  (if microsecond d =? 0 then "" else "." +:+ zfill 6 (microsecond d) "").

End Py.

(** ** Exceptions, events and the effect monad *)

(** An instance of Python's [Exception]; [str e] is its message.  Only
    [Exception] is modelled: it is what every handler of the program
    catches.  [KeyboardInterrupt] and [SystemExit], which are not
    [Exception]s and pass every [except Exception] of the program, are
    outside the model: no statement below speaks of them. *)
Inductive exn := Exception (msg : string).

Definition str (e : exn) : string := match e with Exception m => m end.

(** The dictionary handed to [memory.store]: its four values, the
    timestamp being the one key of the inner ["metadata"] dictionary.  The
    float literal [0.7] is kept as the decimal it denotes; it is stored,
    never computed with. *)
Record MemoryEntry := {
  category : string;
  content : string;
  importance : Q;
  metadata_timestamp : string
}.

Inductive level := DEBUG | INFO | WARNING | ERROR.

(** The classes the module loader may or may not provide. *)
Inductive class_name :=
| cDerekUltimateVoice | cMemoryMeshBridge | cDerek
| cPerplexityService | cMemoryEngine | cConversationEngine.

(** What the program does to the outside, one event per call:
    - [Log]: [logger.debug/info/warning/error(msg)];
    - [Stdout]: [print(line)];
    - [PrintMicrophones]: the [print] of line 208, whose text is the
      [repr] of the list of names and is kept as the list itself;
    - [Construct]: a call of a constructor;
    - [Think], [Store], [Speak]: [derek.think], [memory.store],
      [derek_ultimate_voice.speak];
    - [SaveEngine], [SaveMemory], [StopVision]: [memory_engine.save()],
      [memory.save()], [vision.stop()];
    - [ImportSpeechRecognition]: the [import] and [sr.Recognizer()];
    - [ListMicrophones], [OpenMicrophone], [Calibrate], [Listen],
      [Recognize]: the calls on [sr.Microphone] and on the recogniser;
    - [Input]: [input(prompt)]. *)
Inductive event :=
| Log (lv : level) (msg : string)
| Stdout (line : string)
| PrintMicrophones (names : list string)
| Construct (c : class_name)
| Think (message : string)
| Store (entry : MemoryEntry)
| Speak (text : string)
| SaveEngine
| SaveMemory
| StopVision
| ImportSpeechRecognition
| ListMicrophones
| OpenMicrophone (device_index : nat)
| Calibrate (duration : nat)
| Listen (timeout phrase_time_limit : nat)
| Recognize
| Input (prompt : string).

Definition trace := list event.

Inductive outcome (A : Type) :=
| Ret (a : A)
| Raise (e : exn).
Arguments Ret {A} a.
Arguments Raise {A} e.

(** A computation reads the history, extends it and returns or raises. *)
Definition M (A : Type) : Type := trace -> outcome A * trace.

#[global] Instance M_ret : MRet M := fun A a t => (Ret a, t).

#[global] Instance M_bind : MBind M := fun A B k m t =>
  match m t with
  | (Ret a, t') => k a t'
  | (Raise e, t') => (Raise e, t')
  end.

(** [raise e] *)
Definition raise {A} (e : exn) : M A := fun t => (Raise e, t).

(** [try: body / except Exception as e: handler e] *)
Definition try_except {A} (body : M A) (handler : exn -> M A) : M A := fun t =>
  match body t with
  | (Ret a, t') => (Ret a, t')
  | (Raise e, t') => handler e t'
  end.

(** An observable action without result. *)
Definition emit (ev : event) : M unit := fun t => (Ret tt, t ++ [ev]).

(** A call on a collaborator: the attempt is recorded, the oracle decides
    the result from the history before the call. *)
Definition call {A} (ev : event) (oracle : trace -> outcome A) : M A :=
  fun t => (oracle t, t ++ [ev]).

Definition logger (lv : level) (msg : string) : M unit := emit (Log lv msg).
Definition print (line : string) : M unit := emit (Stdout line).

(** ** The collaborators

    One record per class, with the methods the orchestrator calls.  A
    method receives the history before the call.  An object that is there
    counts as true in the tests [if self.memory:], [if not self.derek] and
    the like, as instances do unless their class says otherwise. *)

(** [brain.Derek]: [think(message)] returns a dictionary or raises.  The
    dictionary maps field names to texts; the reply is looked up under
    ["response"]. *)
Record Derek := {
  think : trace -> string -> outcome (gmap string string)
}.

(** [MemoryMeshBridge]: [store(entry)] and [save()]. *)
Record MemoryMeshBridge := {
  store : trace -> MemoryEntry -> outcome unit;
  save : trace -> outcome unit
}.

(** [MemoryEngine]: only [save()] is used. *)
Record MemoryEngine := {
  engine_save : trace -> outcome unit
}.

(** [DerekUltimateVoice]: [speak] is [None] when the object has no such
    attribute ([hasattr] is tested in [start] only). *)
Record DerekUltimateVoice := {
  speak : option (trace -> string -> outcome unit)
}.

(** The vision engine: only [stop()] is used. *)
Record VisionEngine := {
  vision_stop : trace -> outcome unit
}.

(** Constructed and held, never called by this file. *)
Record PerplexityService := { perplexity_handle : unit }.
Record ConversationEngine := { conversation_handle : unit }.

(** What [getattr(module, name, None)] found for each class: [None] when
    the class is missing, otherwise the result of the one call of its
    constructor that the program makes. *)
Record loader := {
  cls_PerplexityService : option (outcome PerplexityService);
  cls_MemoryEngine : option (outcome MemoryEngine);
  cls_ConversationEngine : option (outcome ConversationEngine);
  cls_Derek : option (outcome Derek);
  cls_DerekUltimateVoice : option (outcome DerekUltimateVoice);
  cls_MemoryMeshBridge : option (outcome MemoryMeshBridge)
}.

(** The attributes of a [DerekDashboard] instance. *)
Record DerekDashboard := {
  memory_engine : option MemoryEngine;
  conversation_engine : option ConversationEngine;
  perplexity_service : option PerplexityService;
  derek : option Derek;
  derek_ultimate_voice : option DerekUltimateVoice;
  memory : option MemoryMeshBridge;
  vision : option VisionEngine
}.

(** [Cls(...)]: one constructor call. *)
Definition construct {A} (c : class_name) (result : outcome A) : M A :=
  call (Construct c) (fun _ => result).

(** Calling [None]. *)
Definition not_callable {A} : M A :=
  raise (Exception "'NoneType' object is not callable").

(** ** Module-level core initialization (lines 86-92) *)

Definition core_initialization (ld : loader)
  : M (option DerekUltimateVoice * option MemoryMeshBridge) :=
  try_except
    (v ← match cls_DerekUltimateVoice ld with
         | Some k => h ← construct cDerekUltimateVoice k; mret (Some h)
         | None => mret None
         end;
     m ← match cls_MemoryMeshBridge ld with
         | Some k => h ← construct cMemoryMeshBridge k; mret (Some h)
         | None => mret None
         end;
     logger INFO "✅ Derek Core Modules initialized successfully";;
     mret (v, m))
    (fun e =>
       logger ERROR ("❌ Initialization failure: " +:+ str e);;
       mret (None, None)).

(** ** [DerekDashboard.__init__] (lines 106-145) *)

Definition DerekDashboard_init (ld : loader)
    (voice_global : option DerekUltimateVoice)
    (memory_global : option MemoryMeshBridge) : M DerekDashboard :=
  logger INFO (Py.repeat "=" 60);;
  logger INFO "🚀 Initializing Derek Dashboard";;
  logger INFO "The Christman AI Project - AI That Empowers";;
  logger INFO (Py.repeat "=" 60);;
  d ← try_except
        (h ← match cls_Derek ld with
             | Some k => construct cDerek k
             | None => not_callable
             end;
         mret (Some h))
        (fun e =>
           logger ERROR ("Derek initialization failed: " +:+ str e);;
           mret None);
  p ← match cls_PerplexityService ld with
      | Some k =>
          try_except
            (h ← construct cPerplexityService k;
             logger INFO "✅ Perplexity Service ready";;
             mret (Some h))
            (fun e =>
               logger WARNING ("Perplexity unavailable: " +:+ str e);;
               mret None)
      | None => mret None
      end;
  me ← match cls_MemoryEngine ld with
       | Some k =>
           try_except
             (h ← construct cMemoryEngine k;
              logger INFO "✅ Memory Engine ready";;
              mret (Some h))
             (fun e =>
                logger WARNING ("Memory Engine unavailable: " +:+ str e);;
                mret None)
       | None => mret None
       end;
  ce ← match cls_ConversationEngine ld with
       | Some k =>
           try_except
             (h ← construct cConversationEngine k;
              logger INFO "✅ Conversation Engine ready";;
              mret (Some h))
             (fun e =>
                logger WARNING ("Conversation Engine unavailable: " +:+ str e);;
                mret None)
       | None => mret None
       end;
  mret {| memory_engine := me;
          conversation_engine := ce;
          perplexity_service := p;
          derek := d;
          derek_ultimate_voice := voice_global;
          memory := memory_global;
          vision := None |}.

(** The initializer as the program runs it: the module-level block at
    import time, then the constructor called first thing in [main]. *)
Definition initialize (ld : loader) : M DerekDashboard :=
  '(v, m) ← core_initialization ld;
  DerekDashboard_init ld v m.

(** ** [DerekDashboard.start] (lines 147-157) *)

Definition start (self : DerekDashboard) : M unit :=
  logger INFO "🎯 Derek Dashboard is now active";;
  match derek_ultimate_voice self with
  | Some v =>
      try_except
        (let greeting := "Hello, I am Derek, ready to assist you." in
         logger INFO ("🗣️ Derek: " +:+ greeting);;
         match speak v with
         | Some f => call (Speak greeting) (fun t => f t greeting)
         | None => mret tt
         end)
        (fun e => logger WARNING ("Failed to speak greeting: " +:+ str e))
  | None => mret tt
  end.

Section Dashboard.

(** [datetime.now()], answered by the clock from the history so far. *)
Variable now : trace -> Py.datetime.

Definition datetime_now : M Py.datetime := fun t => (Ret (now t), t).

(** ** [DerekDashboard.process_message] (lines 159-178) *)

Definition process_message (self : DerekDashboard) (message : string) : M string :=
  match derek self with
  | None => mret "System not ready."
  | Some brain =>
      try_except
        (response ← call (Think message) (fun t => think brain t message);
         let final_text := default "[No output]" (response !! "response") in
         match memory self with
         | Some mem =>
             try_except
               (stamp ← datetime_now;
                let entry :=
                  {| category := "conversation";
                     content := Py.slice_to 50 message +:+ " -> "
                                +:+ Py.slice_to 50 final_text;
                     importance := 7 # 10;
                     metadata_timestamp := Py.isoformat stamp |} in
                call (Store entry) (fun t => store mem t entry))
               (fun e => logger DEBUG ("Memory store failed: " +:+ str e))
         | None => mret tt
         end;;
         mret final_text)
        (fun e =>
           logger ERROR ("Error during message processing: " +:+ str e);;
           mret "Error processing message.")
  end.

(** ** [DerekDashboard.stop] (lines 180-188) *)

Definition stop (self : DerekDashboard) : M unit :=
  logger INFO "🧠 Shutting down Derek Dashboard services...";;
  try_except
    (match memory_engine self with
     | Some me => call SaveEngine (engine_save me)
     | None => mret tt
     end;;
     match memory self with
     | Some mem => call SaveMemory (save mem)
     | None => mret tt
     end;;
     match vision self with
     | Some v => call StopVision (vision_stop v)
     | None => mret tt
     end)
    (fun e => logger ERROR ("Error saving memory on shutdown: " +:+ str e));;
  logger INFO "🛑 Derek Dashboard stopped cleanly.".

(** ** [main] (lines 193-252) *)

(** The [speech_recognition] package as [main] uses it before the loop. *)
Record speech_recognition := {
  import_sr : outcome unit;
  list_microphone_names : outcome (list string);
  Microphone : nat -> outcome unit;
  adjust_for_ambient_noise : outcome unit
}.

(** What one pass through the audio branch meets: [recognizer.listen]
    raises, or it returns audio and [recognize_google] raises, or both
    return. *)
Inductive capture :=
| CaptureFails (e : exn)
| RecognitionFails (e : exn)
| Heard (text : string).

Definition listen_result (c : capture) : outcome unit :=
  match c with CaptureFails e => Raise e | _ => Ret tt end.

Definition recognize_result (c : capture) : outcome string :=
  match c with
  | Heard text => Ret text
  | RecognitionFails e | CaptureFails e => Raise e
  end.

(** What one call of [input] meets: a line, or an error such as [EOFError]. *)
Inductive typed :=
| Line (s : string)
| InputFails (e : exn).

Definition input_result (i : typed) : outcome string :=
  match i with Line s => Ret s | InputFails e => Raise e end.

(** Lines 225-234; [None] is the [continue]. *)
Definition acquire_audio (c : capture) : M (option string) :=
  print (Py.nl +:+ "👂 Listening...");;
  call (Listen 15 40) (fun _ => listen_result c);;
  try_except
    (text ← call Recognize (fun _ => recognize_result c);
     print ("🧑 You said: " +:+ text);;
     mret (Some text))
    (fun e =>
       print ("❌ Speech recognition error: " +:+ str e);;
       mret None).

(** Line 236. *)
Definition acquire_text (i : typed) : M (option string) :=
  line ← call (Input (Py.nl +:+ "🧑 You: ")) (fun _ => input_result i);
  mret (Some (Py.strip line)).

Definition termination_vocabulary : list string :=
  ["goodbye"; "exit"; "quit"; "stop"].

(** The test of line 238. *)
Definition is_termination (text : string) : bool :=
  Py.any (fun word => Py.contains word (Py.lower text)) termination_vocabulary.

(** [voice.speak(msg)] without a [hasattr] test: an [AttributeError] when
    the method is missing, with the message Python gives it for an
    instance of the class [DerekUltimateVoice]. *)
Definition speak_unchecked (v : DerekUltimateVoice) (msg : string) : M unit :=
  match speak v with
  | Some f => call (Speak msg) (fun t => f t msg)
  | None =>
      raise (Exception
               "'DerekUltimateVoice' object has no attribute 'speak'")
  end.

(** Lines 238-246 for one utterance; [true] is the [break]. *)
Definition dispatch (dashboard : DerekDashboard) (text : string) : M bool :=
  if is_termination text then
    let msg := "Goodbye! See you next time." in
    print ("👋 Derek: " +:+ msg);;
    match derek_ultimate_voice dashboard with
    | Some v => speak_unchecked v msg
    | None => mret tt
    end;;
    mret true
  else
    response ← process_message dashboard text;
    print ("🤖 Derek: " +:+ response);;
    mret false.

(** Where the loop stands when the scripted input is used up, or after
    it has left. *)
Inductive status := LISTENING | TERMINATED.

(** Lines 238-246 inside the loop: leave on [break], otherwise go round
    again. *)
Definition dispatch_then (dashboard : DerekDashboard) (text : string)
    (again : M status) : M status :=
  leave ← dispatch dashboard text;
  if leave : bool then mret TERMINATED else again.

(** [while True:] over the inputs the environment provides, one element
    per pass. *)
Fixpoint loop {I} (acquire : I -> M (option string))
    (dashboard : DerekDashboard) (script : list I) : M status :=
  match script with
  | [] => mret LISTENING
  | i :: rest =>
      o ← acquire i;
      match o with
      | None => loop acquire dashboard rest
      | Some text =>
          dispatch_then dashboard text (loop acquire dashboard rest)
      end
  end.

(** Lines 205-214: the microphone, or [None]. *)
Definition initialize_microphone (sr : speech_recognition) : M bool :=
  print "🎙️ Initializing microphone...";;
  try_except
    (mic_list ← call ListMicrophones (fun _ => list_microphone_names sr);
     emit (PrintMicrophones mic_list);;
     let mic_index := 2 in
     call (OpenMicrophone mic_index) (fun _ => Microphone sr mic_index);;
     match mic_list !! mic_index with
     | Some name => print ("✅ Using microphone: " +:+ name)
     | None => raise (Exception "list index out of range")
     end;;
     mret true)
    (fun e =>
       print ("❌ Microphone initialization failed: " +:+ str e);;
       mret false).

(** Lines 197-222: from [start] to the choice of the input channel;
    [true] when the microphone is in use. *)
Definition main_setup (sr : speech_recognition) (dashboard : DerekDashboard)
  : M bool :=
  start dashboard;;
  print (Py.nl +:+ "🎤 Derek Speech-to-Speech Mode Active");;
  print "🗣️ Say something to Derek, 'goodbye' to exit";;
  print (Py.repeat "=" 50);;
  call ImportSpeechRecognition (fun _ => import_sr sr);;
  mic ← initialize_microphone sr;
  (if mic : bool then
     print "🔧 Calibrating microphone...";;
     call (Calibrate 3) (fun _ => adjust_for_ambient_noise sr);;
     print "✅ Microphone ready"
   else
     print "⚠️ No working microphone found, switching to text input mode.");;
  mret mic.

(** Lines 197-246: the body of the [try] after the dashboard is built. *)
Definition main_body (sr : speech_recognition) (dashboard : DerekDashboard)
    (captures : list capture) (lines : list typed) : M status :=
  mic ← main_setup sr dashboard;
  if mic : bool then loop acquire_audio dashboard captures
  else loop acquire_text dashboard lines.

Definition fatal (e : exn) : M status :=
  logger ERROR ("Fatal error: " +:+ str e);;
  mret TERMINATED.

(** [main]: [try] / [except Exception] / [finally].  The [finally] block
    runs once control leaves the [try]; while the loop is still waiting
    for input ([LISTENING]) it has not run. *)
Definition main (ld : loader) (voice_global : option DerekUltimateVoice)
    (memory_global : option MemoryMeshBridge) (sr : speech_recognition)
    (captures : list capture) (lines : list typed) : M status :=
  fun t : trace =>
  match DerekDashboard_init ld voice_global memory_global t with
  | (Raise e, t1) => fatal e t1
  | (Ret dashboard, t1) =>
      let after_init : M status :=
        st ← try_except (main_body sr dashboard captures lines) fatal;
        match st with
        | TERMINATED => stop dashboard
        | LISTENING => mret tt
        end;;
        mret st in
      after_init t1
  end.

(** The whole script: module level, then [main()]. *)
Definition program (ld : loader) (sr : speech_recognition)
    (captures : list capture) (lines : list typed) : M status :=
  '(v, m) ← core_initialization ld;
  main ld v m sr captures lines.

End Dashboard.

(** ** Reading a trace *)

(** The entries handed to [memory.store], in order. *)
Definition stores (evs : trace) : list MemoryEntry :=
  omap (fun ev => match ev with Store entry => Some entry | _ => None end) evs.

(** The messages handed to [derek.think], in order. *)
Definition thoughts (evs : trace) : list string :=
  omap (fun ev => match ev with Think m => Some m | _ => None end) evs.

(** The texts handed to [speak], in order. *)
Definition spoken (evs : trace) : list string :=
  omap (fun ev => match ev with Speak s => Some s | _ => None end) evs.

(** The lines printed, in order. *)
Definition printed (evs : trace) : list string :=
  omap (fun ev => match ev with Stdout s => Some s | _ => None end) evs.

(** The constructors called, in order. *)
Definition constructions (evs : trace) : list class_name :=
  omap (fun ev => match ev with Construct c => Some c | _ => None end) evs.

(** The flush and stop calls of shutdown, in order. *)
Definition shutdown_calls (evs : trace) : trace :=
  omap (fun ev => match ev with
                  | SaveEngine | SaveMemory | StopVision => Some ev
                  | _ => None
                  end) evs.

(** ** Views used in the statements *)

(** The four subsystem roles of the registry and where the dashboard
    keeps each. *)
Inductive role := Reasoner | Memory | Knowledge | Voice.

Definition present (d : DerekDashboard) (r : role) : bool :=
  match r with
  | Reasoner => bool_decide (is_Some (derek d))
  | Memory => bool_decide (is_Some (memory d))
  | Knowledge => bool_decide (is_Some (perplexity_service d))
  | Voice => bool_decide (is_Some (derek_ultimate_voice d))
  end.

Definition role_class (r : role) : class_name :=
  match r with
  | Reasoner => cDerek
  | Memory => cMemoryMeshBridge
  | Knowledge => cPerplexityService
  | Voice => cDerekUltimateVoice
  end.

Definition available {A} (cls : option (outcome A)) : bool :=
  match cls with Some _ => true | None => false end.

Definition builds {A} (cls : option (outcome A)) : bool :=
  match cls with Some (Ret _) => true | _ => false end.

Definition fails {A} (cls : option (outcome A)) : bool :=
  match cls with Some (Raise _) => true | _ => false end.

(** The one call made on something that is there. *)
Definition attempt {A B} (what : B) (o : option (outcome A)) : list B :=
  if available o then [what] else [].

(** The same dashboard with another memory bridge, or none. *)
Definition with_memory (m : option MemoryMeshBridge) (d : DerekDashboard)
  : DerekDashboard :=
  {| memory_engine := memory_engine d;
     conversation_engine := conversation_engine d;
     perplexity_service := perplexity_service d;
     derek := derek d;
     derek_ultimate_voice := derek_ultimate_voice d;
     memory := m;
     vision := vision d |}.

(** ** Configuration (lines 27-28)

    [os.environ] as a dictionary; [os.getenv(name, default)] is a lookup
    with a default. *)

Definition getenv (environ : gmap string string) (name default_value : string)
  : string :=
  default default_value (environ !! name).

Definition ENABLE_VISION (environ : gmap string string) : bool :=
  bool_decide (Py.lower (getenv environ "DEREK_VISION" "false") = "true").

Definition DEREK_MODE (environ : gmap string string) : string :=
  getenv environ "DEREK_MODE" "tensorflow".

(** ** Footprints

    The collaborator, or the output channel, an event belongs to. *)
Inductive kind :=
| KLog | KStdout | KConstruct | KThink | KStore | KSpeak
| KShutdown | KSetup | KAcquire.

Definition kind_of (ev : event) : kind :=
  match ev with
  | Log _ _ => KLog
  | Stdout _ | PrintMicrophones _ => KStdout
  | Construct _ => KConstruct
  | Think _ => KThink
  | Store _ => KStore
  | Speak _ => KSpeak
  | SaveEngine | SaveMemory | StopVision => KShutdown
  | ImportSpeechRecognition | ListMicrophones | OpenMicrophone _
  | Calibrate _ => KSetup
  | Listen _ _ | Recognize | Input _ => KAcquire
  end.

Definition allowed (ks : list kind) (ev : event) : Prop := In (kind_of ev) ks.

(** A computation that, from every history and whatever it returns, only
    appends events that satisfy [P]. *)
Definition emits {A} (P : event -> Prop) (m : M A) : Prop :=
  forall t, exists evs, snd (m t) = t ++ evs /\ Forall P evs.

(** ** The utterances a script leads to

    What one element of the script yields: an error, nothing (the
    [continue]), or an utterance. *)
Definition heard_text (i : typed) : outcome (option string) :=
  match i with
  | Line s => Ret (Some (Py.strip s))
  | InputFails e => Raise e
  end.

Definition heard_audio (c : capture) : outcome (option string) :=
  match c with
  | Heard text => Ret (Some text)
  | RecognitionFails _ => Ret None
  | CaptureFails e => Raise e
  end.

(** The utterances that come before the first termination phrase and the
    first error, in order. *)
Fixpoint dispatched {I} (heard : I -> outcome (option string))
    (script : list I) : list string :=
  match script with
  | [] => []
  | i :: rest =>
      match heard i with
      | Raise _ => []
      | Ret None => dispatched heard rest
      | Ret (Some text) =>
          if is_termination text then []
          else text :: dispatched heard rest
      end
  end.

(** Whether lines 207-211 all go through: the names are listed, device 2
    opens, and the list has a third name. *)
Definition microphone_ok (sr : speech_recognition) : bool :=
  match list_microphone_names sr, Microphone sr 2 with
  | Ret names, Ret _ => bool_decide (2 < length names)
  | _, _ => false
  end.

(** What a loop without a reasoner may do in text mode: speak, read
    the next line, print the farewell or the not-ready line. *)
Definition unanswered (ev : event) : Prop :=
  allowed [KSpeak; KAcquire] ev \/
  ev = Stdout "👋 Derek: Goodbye! See you next time." \/
  ev = Stdout "🤖 Derek: System not ready.".

(** ** What the log says *)

Definition same_level (a b : level) : bool :=
  match a, b with
  | DEBUG, DEBUG | INFO, INFO | WARNING, WARNING | ERROR, ERROR => true
  | _, _ => false
  end.

(** The messages logged at one level, in order. *)
Definition logged (lv : level) (evs : trace) : list string :=
  omap (fun ev => match ev with
                  | Log lv' msg => if same_level lv lv' then Some msg else None
                  | _ => None
                  end) evs.

(** The handle a class yields when its constructor returns. *)
Definition built {A} (cls : option (outcome A)) : option A :=
  match cls with Some (Ret h) => Some h | _ => None end.

(** The one line about a constructor that raised. *)
Definition complaint {A} (prefix : string) (cls : option (outcome A))
  : list string :=
  match cls with Some (Raise e) => [prefix +:+ str e] | _ => [] end.

(** ** Sample collaborators

    Concrete oracles on which the statements below are exercised. *)

Module Samples.

Definition clock (t : trace) : Py.datetime :=
  {| Py.year := 2024; Py.month := 1; Py.day := 15;
     Py.hour := 10; Py.minute := 30; Py.second := 0; Py.microsecond := 0 |}.

(** Reasoners: one that answers, one whose result has no ["response"]
    key, one that raises, one whose answer is the not-ready sentence. *)
Definition sunny_brain : Derek :=
  {| think := fun _ _ => Ret {["response" := "It is sunny"]} |}.
Definition silent_brain : Derek :=
  {| think := fun _ _ => Ret {["confidence" := "low"]} |}.
Definition broken_brain : Derek :=
  {| think := fun _ _ => Raise (Exception "model crashed") |}.
Definition parrot_brain : Derek :=
  {| think := fun _ _ => Ret {["response" := "System not ready."]} |}.

Definition good_memory : MemoryMeshBridge :=
  {| store := fun _ _ => Ret tt; save := fun _ => Ret tt |}.
Definition failing_memory : MemoryMeshBridge :=
  {| store := fun _ _ => Raise (Exception "disk full");
     save := fun _ => Raise (Exception "disk full") |}.

Definition good_engine : MemoryEngine :=
  {| engine_save := fun _ => Ret tt |}.
Definition failing_engine : MemoryEngine :=
  {| engine_save := fun _ => Raise (Exception "read-only file system") |}.

Definition good_voice : DerekUltimateVoice :=
  {| speak := Some (fun _ _ => Ret tt) |}.
Definition failing_voice : DerekUltimateVoice :=
  {| speak := Some (fun _ _ => Raise (Exception "no audio device")) |}.

Definition dashboard (brain : option Derek) (mem : option MemoryMeshBridge)
    (voice : option DerekUltimateVoice) (engine : option MemoryEngine)
  : DerekDashboard :=
  {| memory_engine := engine;
     conversation_engine := None;
     perplexity_service := None;
     derek := brain;
     derek_ultimate_voice := voice;
     memory := mem;
     vision := None |}.

(** Every class is there; the voice constructor raises, the others build. *)
Definition only_voice_fails : loader :=
  {| cls_PerplexityService := Some (Ret {| perplexity_handle := tt |});
     cls_MemoryEngine := Some (Ret good_engine);
     cls_ConversationEngine := Some (Ret {| conversation_handle := tt |});
     cls_Derek := Some (Ret sunny_brain);
     cls_DerekUltimateVoice := Some (Raise (Exception "polly unreachable"));
     cls_MemoryMeshBridge := Some (Ret good_memory) |}.

(** Every class is there; the memory bridge constructor raises. *)
Definition only_memory_fails : loader :=
  {| cls_PerplexityService := Some (Ret {| perplexity_handle := tt |});
     cls_MemoryEngine := Some (Ret good_engine);
     cls_ConversationEngine := Some (Ret {| conversation_handle := tt |});
     cls_Derek := Some (Ret sunny_brain);
     cls_DerekUltimateVoice := Some (Ret good_voice);
     cls_MemoryMeshBridge := Some (Raise (Exception "cannot create directory")) |}.

(** The speech package cannot be imported. *)
Definition missing_package : speech_recognition :=
  {| import_sr := Raise (Exception "No module named 'speech_recognition'");
     list_microphone_names := Ret [];
     Microphone := fun _ => Ret tt;
     adjust_for_ambient_noise := Ret tt |}.

End Samples.

(** * Facts about the string functions *)

Module PyFacts.
Import Py.

Lemma append_cons (c : ascii) (s r : string) :
  String c s +:+ r = String c (s +:+ r).
Proof. reflexivity. Qed.

Lemma append_empty_r (s : string) : s +:+ "" = s.
Proof. induction s as [|c s IH]; [reflexivity|]. by rewrite append_cons, IH. Qed.

Lemma append_assoc (a b c : string) : (a +:+ b) +:+ c = a +:+ b +:+ c.
Proof.
  induction a as [|x a IH]; [reflexivity|].
  by rewrite !append_cons, IH.
Qed.

(** [startswith] holds exactly of the strings that extend the prefix. *)
Lemma startswith_spec (p s : string) :
  startswith p s = true <-> exists post, s = p +:+ post.
Proof.
  revert s. induction p as [|a p IH]; intros s; simpl.
  - split; [intros _; by exists s | done].
  - destruct s as [|b s].
    + split; [done | intros [post H]; rewrite append_cons in H; discriminate].
    + case_decide as Hab.
      * subst b. rewrite IH. split; intros [post H]; exists post.
        -- by rewrite append_cons, H.
        -- rewrite append_cons in H. by injection H.
      * split; [done | intros [post H]].
        rewrite append_cons in H. injection H as H1 H2. congruence.
Qed.

(** [needle in hay] holds exactly when [hay] splits around [needle]. *)
Lemma contains_spec (needle hay : string) :
  contains needle hay = true <->
  exists pre post, hay = pre +:+ needle +:+ post.
Proof.
  induction hay as [|c hay IH]; simpl.
  - rewrite orb_false_r, startswith_spec. split.
    + intros [post H]. by exists "", post.
    + intros [pre [post H]]. destruct pre as [|x pre].
      * by exists post.
      * rewrite append_cons in H. discriminate.
  - rewrite orb_true_iff, startswith_spec, IH. split.
    + intros [[post H] | [pre [post H]]].
      * by exists "", post.
      * exists (String c pre), post. by rewrite append_cons, H.
    + intros [pre [post H]]. destruct pre as [|x pre].
      * left. by exists post.
      * right. rewrite append_cons in H. injection H as -> H.
        by exists pre, post.
Qed.

Lemma slice_to_length (n : nat) (s : string) :
  String.length (slice_to n s) <= n.
Proof.
  revert s. induction n as [|n IH]; intros [|c s]; simpl; try lia.
  specialize (IH s). lia.
Qed.

(** [s[:n]] is the whole of [s] when it is short, and otherwise its first
    [n] characters. *)
Lemma slice_to_prefix (n : nat) (s : string) :
  exists rest, s = slice_to n s +:+ rest /\
    (String.length s <= n -> rest = "") /\
    (n < String.length s -> String.length (slice_to n s) = n).
Proof.
  revert s. induction n as [|n IH]; intros [|c s]; simpl.
  - exists "". split_and!; [done | done | lia].
  - exists (String c s). split_and!; [done | lia | done].
  - exists "". split_and!; [done | done | lia].
  - destruct (IH s) as (rest & Hs & Hshort & Hlong). exists rest.
    rewrite append_cons, <- Hs. split_and!; [done | |].
    + intros ?. apply Hshort. lia.
    + intros ?. rewrite Hlong; [done | lia].
Qed.

Lemma lstrip_blank (s : string) : blank s = true -> lstrip s = "".
Proof.
  induction s as [|c s IH]; simpl; [done|].
  intros [Hc Hs]%andb_true_iff. rewrite Hc. auto.
Qed.

(** [lstrip] removes a blank prefix and leaves no leading white space. *)
Lemma lstrip_spec (s : string) :
  exists pre, blank pre = true /\ s = pre +:+ lstrip s /\
    match lstrip s with
    | EmptyString => True
    | String c _ => isspace c = false
    end.
Proof.
  induction s as [|c s IH]; simpl.
  - by exists "".
  - destruct (isspace c) eqn:Hc.
    + destruct IH as (pre & Hpre & Hs & Hhead).
      exists (String c pre). simpl. rewrite Hc, Hpre, append_cons, <- Hs. done.
    + by exists "".
Qed.

(** [rstrip] removes a blank suffix and leaves no trailing white space:
    what remains is empty or ends in a character that is not white space. *)
Lemma rstrip_spec (s : string) :
  exists post, blank post = true /\ s = rstrip s +:+ post /\
    (rstrip s = "" \/
     exists body c, rstrip s = body +:+ String c "" /\ isspace c = false).
Proof.
  induction s as [|c s IH]; simpl.
  - exists "". auto.
  - destruct IH as (post & Hpost & Hs & Hlast).
    destruct (rstrip s) as [|d r] eqn:Hr.
    + destruct (isspace c) eqn:Hc.
      * exists (String c post). simpl. rewrite Hc, Hpost.
        split; [done|]. split; [|by left].
        rewrite Hs. reflexivity.
      * exists post. split; [done|]. split.
        -- rewrite Hs. reflexivity.
        -- right. by exists "", c.
    + exists post. split; [done|]. split.
      * by rewrite append_cons, <- Hs.
      * right. destruct Hlast as [? | (body & x & Hbody & Hx)]; [done|].
        exists (String c body), x. by rewrite append_cons, <- Hbody.
Qed.

Lemma rstrip_head (s : string) (c : ascii) (r : string) :
  rstrip s = String c r -> exists r', s = String c r'.
Proof. destruct s as [|x s]; simpl; [done|]. repeat case_match; naive_solver. Qed.

(** [strip] takes a blank prefix and a blank suffix away, and what it
    returns neither starts nor ends with white space. *)
Lemma strip_spec (s : string) :
  exists pre post, blank pre = true /\ blank post = true /\
    s = pre +:+ strip s +:+ post /\
    match strip s with
    | EmptyString => True
    | String c _ => isspace c = false
    end /\
    (strip s = "" \/
     exists body c, strip s = body +:+ String c "" /\ isspace c = false).
Proof.
  unfold strip.
  destruct (lstrip_spec s) as (pre & Hpre & Hs & Hhead).
  destruct (rstrip_spec (lstrip s)) as (post & Hpost & Hl & Hlast).
  exists pre, post. split_and!; [done | done | | | done].
  - by rewrite <- Hl.
  - destruct (rstrip (lstrip s)) as [|c r] eqn:Hr; [done|].
    apply rstrip_head in Hr as [r' Hr']. by rewrite Hr' in Hhead.
Qed.

Lemma strip_blank (s : string) : blank s = true -> strip s = "".
Proof. intros H. unfold strip. by rewrite lstrip_blank. Qed.

Lemma isoformat_example :
  isoformat {| year := 2024; month := 3; day := 9;
               hour := 7; minute := 5; second := 0; microsecond := 1500 |}
  = "2024-03-09T07:05:00.001500".
Proof. reflexivity. Qed.

End PyFacts.

(** * The effect monad *)

Section MonadFacts.

Context {A B C : Type}.

Lemma bind_ret_l (a : A) (k : A -> M B) t : (mret a ≫= k) t = k a t.
Proof. reflexivity. Qed.

Lemma bind_ret_r (m : M A) t : (m ≫= mret) t = m t.
Proof. unfold mbind, M_bind. by destruct (m t) as [[a|e] t']. Qed.

Lemma bind_assoc (m : M A) (k : A -> M B) (k' : B -> M C) t :
  ((m ≫= k) ≫= k') t = (m ≫= (fun a => k a ≫= k')) t.
Proof. unfold mbind, M_bind. by destruct (m t) as [[a|e] t']. Qed.

Lemma bind_raise (e : exn) (k : A -> M B) t : (raise e ≫= k) t = raise e t.
Proof. reflexivity. Qed.

Lemma try_except_ret (a : A) (h : exn -> M A) t :
  try_except (mret a) h t = (Ret a, t).
Proof. reflexivity. Qed.

Lemma try_except_raise (e : exn) (h : exn -> M A) t :
  try_except (raise e) h t = h e t.
Proof. reflexivity. Qed.

(** A guarded sequence: the handler covers both parts. *)
Lemma try_except_bind (m : M A) (k : A -> M B) (h : exn -> M B) t :
  try_except (m ≫= k) h t =
  match m t with
  | (Ret a, t') => try_except (k a) h t'
  | (Raise e, t') => h e t'
  end.
Proof. unfold try_except, mbind, M_bind. by destruct (m t) as [[a|e] t']. Qed.

(** Nothing is ever removed from the history by the primitives. *)
Lemma call_extends (ev : event) (oracle : trace -> outcome A) t :
  snd (call ev oracle t) = t ++ [ev].
Proof. reflexivity. Qed.

End MonadFacts.

(** * The turn pipeline: [process_message] *)

(** Runs the monad operations of a goal. *)
Ltac run :=
  unfold mbind, M_bind, mret, M_ret, try_except, call, emit, raise,
    logger, print, construct, not_callable, datetime_now in *; simpl in *.

(** Brings a trace to the shape [t ++ events]. *)
Ltac trace_shape := rewrite <- ?app_assoc; simpl.

#[global] Arguments Py.isoformat : simpl never.
#[global] Arguments Py.slice_to : simpl never.
#[global] Arguments Py.repeat : simpl never.

Section Turn.

Variable now : trace -> Py.datetime.

Lemma process_message_absent self message t :
  derek self = None ->
  process_message now self message t = (Ret "System not ready.", t).
Proof. intros H. unfold process_message. by rewrite H. Qed.

(** The four ways through [process_message] when the reasoner is there. *)
Lemma process_message_present self brain message t :
  derek self = Some brain ->
  process_message now self message t =
    let t1 := t ++ [Think message] in
    match think brain t message with
    | Raise e =>
        (Ret "Error processing message.",
         t1 ++ [Log ERROR ("Error during message processing: " +:+ str e)])
    | Ret response =>
        let final_text := default "[No output]" (response !! "response") in
        match memory self with
        | None => (Ret final_text, t1)
        | Some mem =>
            let entry :=
              {| category := "conversation";
                 content := Py.slice_to 50 message +:+ " -> "
                            +:+ Py.slice_to 50 final_text;
                 importance := 7 # 10;
                 metadata_timestamp := Py.isoformat (now t1) |} in
            match store mem t1 entry with
            | Ret _ => (Ret final_text, t1 ++ [Store entry])
            | Raise e =>
                (Ret final_text,
                 t1 ++ [Store entry;
                        Log DEBUG ("Memory store failed: " +:+ str e)])
            end
        end
    end.
Proof.
  intros H. unfold process_message. rewrite H. run.
  destruct (think brain t message) as [response|e]; [|done].
  destruct (memory self) as [mem|]; [|done]. run.
  destruct (store mem _ _) as [[]|e]; [done|].
  by rewrite <- app_assoc.
Qed.

(** The reply does not depend on the memory bridge at all. *)
Lemma reply_independent_of_memory self m message t :
  fst (process_message now (with_memory m self) message t)
  = fst (process_message now self message t).
Proof.
  destruct (derek self) as [brain|] eqn:Hd.
  - rewrite (process_message_present (with_memory m self) brain), 
      (process_message_present self brain) by done.
    simpl. destruct (think brain t message); [|done].
    destruct m as [mem|], (memory self) as [mem'|]; simpl;
      repeat case_match; done.
  - by rewrite !process_message_absent.
Qed.

(** C2, as amended.  Whatever the reasoner does, [process_message] returns
    (it does not raise) one reply: the reasoner's reply text when the
    result has one, the placeholder ["[No output]"] when the result has no
    ["response"] key, and ["Error processing message."] when [think]
    raised. *)
Theorem process_message_reply self brain message t :
  derek self = Some brain ->
  exists reply t',
    process_message now self message t = (Ret reply, t') /\
    match think brain t message with
    | Ret response =>
        match response !! "response" with
        | Some text => reply = text
        | None => reply = "[No output]"
        end
    | Raise _ => reply = "Error processing message."
    end.
Proof.
  intros H. rewrite (process_message_present _ _ _ _ H). simpl.
  destruct (think brain t message) as [response|e]; [|eauto].
  destruct (memory self) as [mem|].
  - destruct (store mem _ _); eexists _, _; (split; [done|]);
      by destruct (response !! "response").
  - eexists _, _. split; [done|]. by destruct (response !! "response").
Qed.

(** C3, as amended.  Without a reasoner the reply is ["System not ready."]
    and nothing is done: the trace is unchanged, for every utterance.  With
    a reasoner that sentence is returned only when it is the reasoner's own
    reply text. *)
Theorem system_not_ready_iff self message t :
  (derek self = None ->
   process_message now self message t = (Ret "System not ready.", t)) /\
  (fst (process_message now self message t) = Ret "System not ready." <->
   derek self = None \/
   exists brain response,
     derek self = Some brain /\
     think brain t message = Ret response /\
     response !! "response" = Some "System not ready.").
Proof.
  split; [apply process_message_absent|].
  destruct (derek self) as [brain|] eqn:Hd.
  - rewrite (process_message_present _ _ _ _ Hd). simpl. split.
    + intros Hr. right. exists brain.
      destruct (think brain t message) as [response|e]; [|done].
      exists response. split_and!; [done..|].
      destruct (response !! "response") as [text|] eqn:Hl;
        destruct (memory self); repeat case_match; naive_solver.
    + intros [? | (b & response & [= <-] & -> & ->)]; [done|].
      destruct (memory self); repeat case_match; done.
  - rewrite process_message_absent by done. naive_solver.
Qed.

(** C4.  The weather turn: the reply is exactly ["It is sunny"], and with
    a memory bridge exactly one [store] call is made, whose entry has
    category ["conversation"], importance 0.7, a content made of the first
    50 characters at most of the utterance and of the reply, and the clock
    reading in ISO format as its timestamp. *)
Theorem weather_turn self brain t :
  derek self = Some brain ->
  think brain t "What is the weather" = Ret {["response" := "It is sunny"]} ->
  exists evs,
    process_message now self "What is the weather" t
    = (Ret "It is sunny", t ++ evs) /\
    thoughts evs = ["What is the weather"] /\
    (memory self = None -> stores evs = []) /\
    (is_Some (memory self) ->
     exists entry,
       stores evs = [entry] /\
       category entry = "conversation" /\
       importance entry = 7 # 10 /\
       content entry = "What is the weather -> It is sunny" /\
       content entry = Py.slice_to 50 "What is the weather" +:+ " -> "
                       +:+ Py.slice_to 50 "It is sunny" /\
       String.length (Py.slice_to 50 "What is the weather") <= 50 /\
       String.length (Py.slice_to 50 "It is sunny") <= 50 /\
       metadata_timestamp entry
       = Py.isoformat (now (t ++ [Think "What is the weather"]))).
Proof.
  intros Hd Ht. rewrite (process_message_present _ _ _ _ Hd), Ht. simpl.
  rewrite lookup_singleton_eq. simpl.
  destruct (memory self) as [mem|].
  - destruct (store mem _ _); rewrite <- app_assoc;
      (eexists; split; [done|]); simpl;
      (split_and!; [done | done |]); intros _; eexists;
      split_and!; first [reflexivity | lia].
  - eexists. split_and!; [done..|]. by intros [? ?].
Qed.

(** C5.  A [store] call that raises during a turn changes nothing in
    the reply: it is the reply of the same turn without a memory bridge,
    the turn returns, and the only trace of the failure is the attempted
    call followed by a DEBUG log line. *)
Theorem store_failure_keeps_reply self mem message t :
  memory self = Some mem ->
  (forall entry, exists e, store mem (t ++ [Think message]) entry = Raise e) ->
  exists reply evs,
    process_message now (with_memory None self) message t
    = (Ret reply, t ++ evs) /\
    (process_message now self message t = (Ret reply, t ++ evs) \/
     exists entry e,
       process_message now self message t
       = (Ret reply,
          t ++ evs ++ [Store entry;
                       Log DEBUG ("Memory store failed: " +:+ str e)])).
Proof.
  intros Hm Hfail. destruct (derek self) as [brain|] eqn:Hd.
  - rewrite (process_message_present (with_memory None self) brain),
      (process_message_present self brain) by done.
    simpl. rewrite Hm.
    destruct (think brain t message) as [response|e].
    + eexists _, [_]. split; [done|]. right.
      match goal with |- context [store mem ?h ?en] =>
        destruct (Hfail en) as [e ->]; exists en, e end.
      by rewrite <- !app_assoc.
    + eexists _, [_; _]. rewrite <- !app_assoc. split; [done|]. by left.
  - rewrite !process_message_absent by done.
    exists "System not ready.", []. rewrite app_nil_r. auto.
Qed.

End Turn.

(** The reply of a turn whose reasoner raises. *)
Lemma process_message_reply_witness :
  exists reply t',
    process_message Samples.clock
      (Samples.dashboard (Some Samples.broken_brain) None None None)
      "hello" [] = (Ret reply, t') /\
    reply = "Error processing message.".
Proof.
  exact (process_message_reply Samples.clock
           (Samples.dashboard (Some Samples.broken_brain) None None None)
           Samples.broken_brain "hello" [] eq_refl).
Defined.

(** C2 as stated fails on the literals: the code answers with a capital
    first letter, and a final full stop on the error reply. *)
Lemma reply_literals_counterexample :
  let reply_of brain :=
    fst (process_message Samples.clock
           (Samples.dashboard (Some brain) None None None) "hello" []) in
  think Samples.broken_brain [] "hello" = Raise (Exception "model crashed") /\
  reply_of Samples.broken_brain = Ret "Error processing message." /\
  reply_of Samples.broken_brain <> Ret "error processing message" /\
  reply_of Samples.broken_brain <> Ret "[no output]" /\
  (exists response,
     think Samples.silent_brain [] "hello" = Ret response /\
     response !! "response" = None) /\
  reply_of Samples.silent_brain = Ret "[No output]" /\
  reply_of Samples.silent_brain <> Ret "[no output]" /\
  reply_of Samples.silent_brain <> Ret "error processing message".
Proof.
  split_and!; try (vm_compute; congruence).
  eexists. split; [reflexivity|]. by vm_compute.
Qed.

(** C3 as stated fails from right to left: a reasoner that is present and
    answers with the same sentence makes [process_message] return it, and
    the memory bridge is written to. *)
Lemma not_ready_reply_with_reasoner_present :
  let d := Samples.dashboard (Some Samples.parrot_brain)
             (Some Samples.good_memory) None None in
  is_Some (derek d) /\
  fst (process_message Samples.clock d "" []) = Ret "System not ready." /\
  length (stores (snd (process_message Samples.clock d "" []))) = 1.
Proof. split_and!; [by eexists | by vm_compute..]. Qed.

(** The weather turn with a reasoner that answers and a memory bridge
    that stores. *)
Lemma weather_turn_witness :
  exists evs,
    process_message Samples.clock
      (Samples.dashboard (Some Samples.sunny_brain)
         (Some Samples.good_memory) None None)
      "What is the weather" [] = (Ret "It is sunny", evs) /\
    thoughts evs = ["What is the weather"] /\
    length (stores evs) = 1.
Proof.
  destruct (weather_turn Samples.clock
              (Samples.dashboard (Some Samples.sunny_brain)
                 (Some Samples.good_memory) None None)
              Samples.sunny_brain [] eq_refl eq_refl)
    as (evs & Hrun & Hthink & _ & Hstore).
  exists evs. split_and!; [exact Hrun | exact Hthink |].
  destruct Hstore as (entry & -> & _); [by eexists | reflexivity].
Defined.

(** The weather turn with a memory bridge whose [store] raises, against
    the same turn without a memory bridge. *)
Lemma store_failure_keeps_reply_witness :
  exists reply evs,
    process_message Samples.clock
      (Samples.dashboard (Some Samples.sunny_brain) None None None)
      "What is the weather" [] = (Ret reply, evs) /\
    fst (process_message Samples.clock
           (Samples.dashboard (Some Samples.sunny_brain)
              (Some Samples.failing_memory) None None)
           "What is the weather" []) = Ret reply.
Proof.
  destruct (store_failure_keeps_reply Samples.clock
              (Samples.dashboard (Some Samples.sunny_brain)
                 (Some Samples.failing_memory) None None)
              Samples.failing_memory "What is the weather" [] eq_refl
              (fun _ => ex_intro _ (Exception "disk full") eq_refl))
    as (reply & evs & Hwithout & Hwith).
  exists reply, evs. split; [exact Hwithout|].
  destruct Hwith as [-> | (entry & e & ->)]; reflexivity.
Defined.

(** * The initializer *)

Lemma core_initialization_run ld t :
  exists v m evs,
    core_initialization ld t = (Ret (v, m), t ++ evs) /\
    bool_decide (is_Some v)
    = builds (cls_DerekUltimateVoice ld)
      && negb (fails (cls_MemoryMeshBridge ld)) /\
    bool_decide (is_Some m)
    = builds (cls_MemoryMeshBridge ld)
      && negb (fails (cls_DerekUltimateVoice ld)) /\
    constructions evs =
      attempt cDerekUltimateVoice (cls_DerekUltimateVoice ld) ++
      (if fails (cls_DerekUltimateVoice ld) then []
       else attempt cMemoryMeshBridge (cls_MemoryMeshBridge ld)).
Proof.
  unfold core_initialization.
  destruct (cls_DerekUltimateVoice ld) as [[v|e]|],
           (cls_MemoryMeshBridge ld) as [[m|e']|]; run; trace_shape;
    eexists _, _, _; (split; [reflexivity|]); done.
Qed.

Lemma DerekDashboard_init_run ld v m t :
  exists d evs,
    DerekDashboard_init ld v m t = (Ret d, t ++ evs) /\
    derek_ultimate_voice d = v /\ memory d = m /\ vision d = None /\
    present d Reasoner = builds (cls_Derek ld) /\
    present d Knowledge = builds (cls_PerplexityService ld) /\
    bool_decide (is_Some (memory_engine d)) = builds (cls_MemoryEngine ld) /\
    bool_decide (is_Some (conversation_engine d))
    = builds (cls_ConversationEngine ld) /\
    constructions evs =
      attempt cDerek (cls_Derek ld) ++
      attempt cPerplexityService (cls_PerplexityService ld) ++
      attempt cMemoryEngine (cls_MemoryEngine ld) ++
      attempt cConversationEngine (cls_ConversationEngine ld).
Proof.
  unfold DerekDashboard_init.
  destruct (cls_Derek ld) as [[d|e1]|],
           (cls_PerplexityService ld) as [[p|e2]|],
           (cls_MemoryEngine ld) as [[me|e3]|],
           (cls_ConversationEngine ld) as [[ce|e4]|]; run; trace_shape;
    eexists _, _; (split; [reflexivity|]); done.
Qed.

(** C1, as amended.  The initializer returns a dashboard whatever the
    constructors do.  The reasoner and the knowledge client are there
    exactly when their own constructor built them.  The voice and the
    memory bridge share one guard, voice first: each is there exactly when
    its constructor built it and the other one did not raise, and the
    memory bridge is not constructed once the voice has raised.  A raise
    by any other constructor keeps no constructor from being called. *)
Theorem initialize_by_groups ld t :
  exists d evs,
    initialize ld t = (Ret d, t ++ evs) /\
    present d Reasoner = builds (cls_Derek ld) /\
    present d Knowledge = builds (cls_PerplexityService ld) /\
    present d Voice
    = builds (cls_DerekUltimateVoice ld)
      && negb (fails (cls_MemoryMeshBridge ld)) /\
    present d Memory
    = builds (cls_MemoryMeshBridge ld)
      && negb (fails (cls_DerekUltimateVoice ld)) /\
    constructions evs =
      attempt cDerekUltimateVoice (cls_DerekUltimateVoice ld) ++
      (if fails (cls_DerekUltimateVoice ld) then []
       else attempt cMemoryMeshBridge (cls_MemoryMeshBridge ld)) ++
      attempt cDerek (cls_Derek ld) ++
      attempt cPerplexityService (cls_PerplexityService ld) ++
      attempt cMemoryEngine (cls_MemoryEngine ld) ++
      attempt cConversationEngine (cls_ConversationEngine ld).
Proof.
  destruct (core_initialization_run ld t)
    as (v & m & evs1 & Hcore & Hv & Hm & Hc1).
  destruct (DerekDashboard_init_run ld v m (t ++ evs1))
    as (d & evs2 & Hinit & Hdv & Hdm & _ & Hr & Hk & _ & _ & Hc2).
  exists d, (evs1 ++ evs2).
  unfold initialize, mbind, M_bind. rewrite Hcore, Hinit, app_assoc.
  split; [done|]. unfold present in *. subst v m.
  split_and!; [done..|].
  unfold constructions in *. by rewrite omap_app, Hc1, Hc2, <- app_assoc.
Qed.

(** C1 as stated fails inside the shared guard: with the voice constructor
    alone raising, the memory bridge is absent and was never constructed;
    with the memory constructor alone raising, the voice that was built is
    dropped. *)
Lemma shared_guard_counterexample :
  fails (cls_MemoryMeshBridge Samples.only_voice_fails) = false /\
  match initialize Samples.only_voice_fails [] with
  | (Ret d, evs) =>
      present d Memory = false /\
      constructions evs =
        [cDerekUltimateVoice; cDerek; cPerplexityService;
         cMemoryEngine; cConversationEngine]
  | (Raise _, _) => False
  end /\
  fails (cls_DerekUltimateVoice Samples.only_memory_fails) = false /\
  match initialize Samples.only_memory_fails [] with
  | (Ret d, evs) => present d Voice = false
  | (Raise _, _) => False
  end.
Proof. by vm_compute. Qed.

(** * Shutdown: [stop] *)

(** C6, as amended.  [stop] never raises.  The flush and stop calls are
    made in the order memory engine, memory bridge, vision device, each on
    a subsystem that is there, under one guard: a call that raises is
    caught and logged, at ERROR and with its message, and ends the
    sequence, so that the calls after it are not made; when no call
    raises, every subsystem that is there gets its call and no error is
    logged.  The two INFO lines frame the sequence in every case. *)
Theorem stop_never_raises self t :
  let t0 := t ++ [Log INFO "🧠 Shutting down Derek Dashboard services..."] in
  let engine := (fun me => engine_save me t0) <$> memory_engine self in
  let t1 := t0 ++ attempt SaveEngine engine in
  let bridge := (fun mem => save mem t1) <$> memory self in
  let t2 := t1 ++ attempt SaveMemory bridge in
  let device := (fun v => vision_stop v t2) <$> vision self in
  exists evs,
    stop self t = (Ret tt, t ++ evs) /\
    shutdown_calls evs =
      attempt SaveEngine engine ++
      (if fails engine then []
       else attempt SaveMemory bridge ++
            (if fails bridge then [] else attempt StopVision device)) /\
    logged ERROR evs =
      complaint "Error saving memory on shutdown: " engine ++
      (if fails engine then []
       else complaint "Error saving memory on shutdown: " bridge ++
            (if fails bridge then []
             else complaint "Error saving memory on shutdown: " device)) /\
    logged INFO evs =
      ["🧠 Shutting down Derek Dashboard services...";
       "🛑 Derek Dashboard stopped cleanly."].
Proof.
  cbv zeta. unfold stop, attempt, available, fails, complaint.
  destruct (memory_engine self) as [me|], (memory self) as [mem|],
           (vision self) as [v|]; run;
    repeat first
      [ progress run
      | rewrite app_nil_r
      | match goal with
        | |- context [engine_save ?a ?b] => destruct (engine_save a b) as [[]|?]
        | |- context [save ?a ?b] => destruct (save a b) as [[]|?]
        | |- context [vision_stop ?a ?b] => destruct (vision_stop a b) as [[]|?]
        end ];
    trace_shape; (eexists; split; [reflexivity|]); done.
Qed.

(** C6 as stated fails on isolation: after a memory-engine [save] that
    raises, the memory bridge that is there is never asked to save. *)
Lemma failed_engine_save_skips_memory_save :
  let d := Samples.dashboard None (Some Samples.good_memory) None
             (Some Samples.failing_engine) in
  is_Some (memory d) /\
  stop d [] =
    (Ret tt,
     [Log INFO "🧠 Shutting down Derek Dashboard services...";
      SaveEngine;
      Log ERROR "Error saving memory on shutdown: read-only file system";
      Log INFO "🛑 Derek Dashboard stopped cleanly."]).
Proof. split; [by eexists | reflexivity]. Qed.

(** * The interaction loop *)

Section Loop.

Variable now : trace -> Py.datetime.

(** [process_message] always returns, and neither speaks nor prints. *)
Lemma process_message_returns d text t :
  exists reply evs,
    process_message now d text t = (Ret reply, t ++ evs) /\
    spoken evs = [] /\ printed evs = [].
Proof.
  destruct (derek d) as [brain|] eqn:Hd.
  - rewrite (process_message_present _ _ _ _ _ Hd). simpl.
    destruct (think brain t text); [destruct (memory d) as [mem|];
      [destruct (store mem _ _)|]|];
      trace_shape; eexists _, _; split; done.
  - rewrite process_message_absent by done.
    exists "System not ready.", []. by rewrite app_nil_r.
Qed.

(** The test of line 238 holds exactly when the lower-cased utterance
    has a word of the vocabulary as a substring. *)
Lemma is_termination_spec text :
  is_termination text = true <->
  exists word, In word termination_vocabulary /\
    exists pre post, Py.lower text = pre +:+ word +:+ post.
Proof.
  unfold is_termination, Py.any. rewrite existsb_exists.
  by setoid_rewrite PyFacts.contains_spec.
Qed.

(** [main] runs the loop under its outer handler, and [stop] once the
    loop has left. *)
Lemma main_enters_loop ld v m sr captures lines t d t1 mic t2 :
  DerekDashboard_init ld v m t = (Ret d, t1) ->
  main_setup sr d t1 = (Ret mic, t2) ->
  main now ld v m sr captures lines t =
  match try_except
          (if mic then loop now acquire_audio d captures
           else loop now acquire_text d lines) fatal t2 with
  | (Ret TERMINATED, t3) =>
      match stop d t3 with
      | (Ret _, t4) => (Ret TERMINATED, t4)
      | (Raise e, t4) => (Raise e, t4)
      end
  | other => other
  end.
Proof.
  intros Hinit Hsetup. unfold main, main_body. rewrite Hinit.
  unfold mbind at 1. unfold M_bind at 1. rewrite try_except_bind, Hsetup.
  destruct (try_except _ fatal t2) as [[[]|e] t3]; try done;
    unfold mbind, M_bind, mret, M_ret;
    by destruct (stop d t3) as [[[]|e'] t4].
Qed.

Lemma dispatch_farewell d text t :
  is_termination text = true ->
  dispatch now d text t =
    let farewell := "Goodbye! See you next time." in
    let t1 := t ++ [Stdout "👋 Derek: Goodbye! See you next time."] in
    match derek_ultimate_voice d with
    | None => (Ret true, t1)
    | Some v =>
        match speak v with
        | None =>
            (Raise (Exception
                      "'DerekUltimateVoice' object has no attribute 'speak'"),
             t1)
        | Some f =>
            match f t1 farewell with
            | Ret _ => (Ret true, t1 ++ [Speak farewell])
            | Raise e => (Raise e, t1 ++ [Speak farewell])
            end
        end
    end.
Proof.
  intros H. unfold dispatch, speak_unchecked. rewrite H. cbv zeta.
  destruct (derek_ultimate_voice d) as [v|]; [|done].
  destruct (speak v) as [f|]; [|done]. run.
  change ("👋 Derek: " +:+ "Goodbye! See you next time.")
    with "👋 Derek: Goodbye! See you next time.".
  by destruct (f _ _) as [[]|e].
Qed.

Lemma dispatch_turn d text t reply t' :
  is_termination text = false ->
  process_message now d text t = (Ret reply, t') ->
  dispatch now d text t = (Ret false, t' ++ [Stdout ("🤖 Derek: " +:+ reply)]).
Proof. intros H Hp. unfold dispatch. rewrite H. run. by rewrite Hp. Qed.

(** What an utterance whose lower-cased form contains a word of the
    vocabulary leads to, seen from [main], that is with the outer handler
    around the loop: the farewell is printed, it is handed to [speak] when
    a voice with that method is there, [process_message] is not called and
    nothing is stored.  When [speak] returns the loop is left by [break];
    when it raises, the loop is left by the exception, which the outer
    handler logs as fatal. *)
Theorem termination_word_ends_loop {I} (acquire : I -> M (option string))
    d i rest text t0 t :
  (exists word, In word termination_vocabulary /\
     exists pre post, Py.lower text = pre +:+ word +:+ post) ->
  acquire i t0 = (Ret (Some text), t) ->
  let farewell := "Goodbye! See you next time." in
  let t1 := t ++ [Stdout "👋 Derek: Goodbye! See you next time."] in
  exists evs,
    try_except (loop now acquire d (i :: rest)) fatal t0
    = (Ret TERMINATED, t1 ++ evs) /\
    evs = match derek_ultimate_voice d with
          | None => []
          | Some v =>
              match speak v with
              | None =>
                  [Log ERROR
                     "Fatal error: 'DerekUltimateVoice' object has no attribute 'speak'"]
              | Some f =>
                  Speak farewell ::
                  match f t1 farewell with
                  | Ret _ => []
                  | Raise e => [Log ERROR ("Fatal error: " +:+ str e)]
                  end
              end
          end /\
    Forall (fun ev => ev = Speak farewell \/ exists msg, ev = Log ERROR msg)
      evs /\
    thoughts evs = [] /\ stores evs = [] /\ printed evs = [].
Proof.
  intros Hword%is_termination_spec Hacq. cbv zeta.
  unfold try_except. simpl loop. unfold dispatch_then.
  unfold mbind at 1. unfold M_bind at 1. rewrite Hacq.
  unfold mbind at 1. unfold M_bind at 1.
  rewrite dispatch_farewell by done. cbv zeta.
  destruct (derek_ultimate_voice d) as [v|].
  - destruct (speak v) as [f|].
    + destruct (f _ _) as [[]|e]; unfold fatal; run;
        (eexists; split; [|split; [reflexivity|]]);
        first [ by trace_shape
              | split; [|done];
                repeat (constructor; [naive_solver|]); constructor ].
    + unfold fatal. run. eexists. split; [|split; [reflexivity|]].
      * by trace_shape.
      * split; [|done]. repeat (constructor; [naive_solver|]); constructor.
  - run. exists []. by rewrite app_nil_r.
Qed.

(** C8, as amended.  With the microphone in use, a recognition that
    raises is reported on the text output and the loop goes round again:
    nothing is dispatched and the loop has not left. *)
Theorem recognition_failure_relistens d e rest t :
  let evs := [Stdout (Py.nl +:+ "👂 Listening..."); Listen 15 40; Recognize;
              Stdout ("❌ Speech recognition error: " +:+ str e)] in
  loop now acquire_audio d (RecognitionFails e :: rest) t
  = loop now acquire_audio d rest (t ++ evs) /\
  loop now acquire_audio d [RecognitionFails e] t = (Ret LISTENING, t ++ evs) /\
  thoughts evs = [] /\ stores evs = [].
Proof.
  cbv zeta. split_and!; [| |done..]; simpl loop;
    unfold mbind at 1; unfold M_bind at 1; unfold acquire_audio; run;
    by trace_shape.
Qed.

(** C9, as amended.  An utterance that is not a termination phrase is
    handed to [process_message], the reply is printed, and the loop goes
    round again. *)
Theorem reply_is_printed {I} (acquire : I -> M (option string))
    d i rest text t0 t :
  is_termination text = false ->
  acquire i t0 = (Ret (Some text), t) ->
  exists reply evs,
    process_message now d text t = (Ret reply, t ++ evs) /\
    loop now acquire d (i :: rest) t0
    = loop now acquire d rest
        (t ++ evs ++ [Stdout ("🤖 Derek: " +:+ reply)]).
Proof.
  intros Hterm Hacq.
  destruct (process_message_returns d text t) as (reply & evs & Hp & _).
  exists reply, evs. split; [done|]. simpl loop. unfold dispatch_then.
  unfold mbind at 1. unfold M_bind at 1. rewrite Hacq.
  unfold mbind at 1. unfold M_bind at 1.
  rewrite (dispatch_turn _ _ _ _ _ Hterm Hp). by rewrite app_assoc.
Qed.

(** C10.  A typed line is stripped before the vocabulary test and before
    dispatch: what is tested and dispatched is the line without its blank
    prefix and its blank suffix, so that a line of white space is
    dispatched as the empty string; what the recogniser heard is
    dispatched as it is. *)
Theorem typed_line_is_stripped d line text rest captures t :
  loop now acquire_text d (Line line :: rest) t
  = dispatch_then now d (Py.strip line) (loop now acquire_text d rest)
      (t ++ [Input (Py.nl +:+ "🧑 You: ")]) /\
  (exists pre post,
     Py.blank pre = true /\ Py.blank post = true /\
     line = pre +:+ Py.strip line +:+ post /\
     match Py.strip line with
     | EmptyString => True
     | String c _ => Py.isspace c = false
     end /\
     (Py.strip line = "" \/
      exists body c,
        Py.strip line = body +:+ String c "" /\ Py.isspace c = false)) /\
  (Py.blank line = true ->
   Py.strip line = "" /\
   exists reply evs,
     process_message now d "" (t ++ [Input (Py.nl +:+ "🧑 You: ")])
     = (Ret reply, (t ++ [Input (Py.nl +:+ "🧑 You: ")]) ++ evs) /\
     (is_Some (derek d) -> thoughts evs = [""]) /\
     loop now acquire_text d (Line line :: rest) t
     = loop now acquire_text d rest
         ((t ++ [Input (Py.nl +:+ "🧑 You: ")]) ++ evs
          ++ [Stdout ("🤖 Derek: " +:+ reply)])) /\
  loop now acquire_audio d (Heard text :: captures) t
  = dispatch_then now d text (loop now acquire_audio d captures)
      (t ++ [Stdout (Py.nl +:+ "👂 Listening..."); Listen 15 40; Recognize;
             Stdout ("🧑 You said: " +:+ text)]).
Proof.
  assert (Hloop : loop now acquire_text d (Line line :: rest) t
    = dispatch_then now d (Py.strip line) (loop now acquire_text d rest)
        (t ++ [Input (Py.nl +:+ "🧑 You: ")])) by done.
  split_and!; [done | apply PyFacts.strip_spec | |].
  - intros Hblank%PyFacts.strip_blank. split; [done|].
    rewrite Hloop, Hblank. set (t1 := t ++ [Input _]).
    destruct (process_message_returns d "" t1) as (reply & evs & Hp & _).
    exists reply, evs. split_and!; [done| |].
    + intros [brain Hd].
      rewrite (process_message_present _ _ _ _ _ Hd) in Hp. simpl in Hp.
      destruct (think brain t1 ""); [destruct (memory d) as [mem|];
        [destruct (store mem _ _)|]|];
        revert Hp; trace_shape; intros [= _ <-%app_inv_head]; done.
    + unfold dispatch_then, mbind, M_bind.
      by rewrite (dispatch_turn d "" t1 reply _ eq_refl Hp), app_assoc.
  - simpl loop. unfold mbind at 1. unfold M_bind at 1.
    unfold acquire_audio. run. by trace_shape.
Qed.

End Loop.

(** A typed farewell with a voice whose [speak] raises: the loop is left,
    the line after it is never read. *)
Lemma termination_word_ends_loop_witness :
  exists evs,
    try_except
      (loop Samples.clock acquire_text
         (Samples.dashboard (Some Samples.sunny_brain)
            (Some Samples.good_memory) (Some Samples.failing_voice) None)
         [Line "Goodbye, I'm done"; Line "one more thing"]) fatal []
    = (Ret TERMINATED,
       [Input (Py.nl +:+ "🧑 You: ");
        Stdout "👋 Derek: Goodbye! See you next time."] ++ evs) /\
    thoughts evs = [] /\ stores evs = [].
Proof.
  assert (Hword : exists word, In word termination_vocabulary /\
            exists pre post,
              Py.lower "Goodbye, I'm done" = pre +:+ word +:+ post).
  { exists "goodbye". split; [by left|]. by exists "", ", i'm done". }
  destruct (termination_word_ends_loop Samples.clock acquire_text
              (Samples.dashboard (Some Samples.sunny_brain)
                 (Some Samples.good_memory) (Some Samples.failing_voice) None)
              (Line "Goodbye, I'm done") [Line "one more thing"]
              "Goodbye, I'm done" [] [Input (Py.nl +:+ "🧑 You: ")]
              Hword eq_refl)
    as (evs & Hrun & _ & _ & Hthink & Hstore & _).
  exists evs. split_and!; [exact Hrun | exact Hthink | exact Hstore].
Defined.

(** C7.  The farewell [speak] of line 242 has no guard.  With a voice
    whose [speak] raises, the typed farewell makes the loop itself raise:
    the failure is not ignored, the [break] is never reached, and it is
    the outer handler of [main] that ends the run, logging a fatal error.
    [start] guards the very same call (lines 151-157): there the failure
    is caught and logged as a warning, and [start] returns. *)
Theorem farewell_speak_failure_escapes_loop :
  let d := Samples.dashboard (Some Samples.sunny_brain)
             (Some Samples.good_memory) (Some Samples.failing_voice) None in
  let script := [Line "Goodbye, I'm done"; Line "one more thing"] in
  is_termination "Goodbye, I'm done" = true /\
  loop Samples.clock acquire_text d script []
  = (Raise (Exception "no audio device"),
     [Input (Py.nl +:+ "🧑 You: ");
      Stdout "👋 Derek: Goodbye! See you next time.";
      Speak "Goodbye! See you next time."]) /\
  try_except (loop Samples.clock acquire_text d script) fatal []
  = (Ret TERMINATED,
     [Input (Py.nl +:+ "🧑 You: ");
      Stdout "👋 Derek: Goodbye! See you next time.";
      Speak "Goodbye! See you next time.";
      Log ERROR "Fatal error: no audio device"]) /\
  start d []
  = (Ret tt,
     [Log INFO "🎯 Derek Dashboard is now active";
      Log INFO "🗣️ Derek: Hello, I am Derek, ready to assist you.";
      Speak "Hello, I am Derek, ready to assist you.";
      Log WARNING "Failed to speak greeting: no audio device"]).
Proof. split_and!; by vm_compute. Qed.

(** C8 as stated fails for a capture failure: when [listen] raises, the
    exception leaves the loop, [main] logs it as fatal, and what would
    have been heard next is never listened to. *)
Lemma capture_failure_ends_loop :
  let d := Samples.dashboard (Some Samples.sunny_brain) None None None in
  let timeout :=
    Exception "listening timed out while waiting for phrase to start" in
  loop Samples.clock acquire_audio d [CaptureFails timeout; Heard "hello"] []
  = (Raise timeout,
     [Stdout (Py.nl +:+ "👂 Listening..."); Listen 15 40]) /\
  try_except
    (loop Samples.clock acquire_audio d [CaptureFails timeout; Heard "hello"])
    fatal []
  = (Ret TERMINATED,
     [Stdout (Py.nl +:+ "👂 Listening..."); Listen 15 40;
      Log ERROR
        "Fatal error: listening timed out while waiting for phrase to start"]).
Proof. split; reflexivity. Qed.

(** One typed utterance, answered and printed, after which the loop
    waits for the next one. *)
Lemma reply_is_printed_witness :
  exists reply evs,
    process_message Samples.clock
      (Samples.dashboard (Some Samples.sunny_brain) None
         (Some Samples.good_voice) None)
      "hello" [Input (Py.nl +:+ "🧑 You: ")]
    = (Ret reply, [Input (Py.nl +:+ "🧑 You: ")] ++ evs) /\
    loop Samples.clock acquire_text
      (Samples.dashboard (Some Samples.sunny_brain) None
         (Some Samples.good_voice) None)
      [Line "hello"] []
    = (Ret LISTENING,
       [Input (Py.nl +:+ "🧑 You: ")] ++ evs
       ++ [Stdout ("🤖 Derek: " +:+ reply)]).
Proof.
  exact (reply_is_printed Samples.clock acquire_text
           (Samples.dashboard (Some Samples.sunny_brain) None
              (Some Samples.good_voice) None)
           (Line "hello") [] "hello" [] [Input (Py.nl +:+ "🧑 You: ")]
           eq_refl eq_refl).
Defined.

(** C9 as stated fails on the voice: with a voice that is there and
    works, the reply is printed and nothing is handed to [speak]. *)
Lemma reply_is_not_spoken :
  let d := Samples.dashboard (Some Samples.sunny_brain) None
             (Some Samples.good_voice) None in
  is_Some (derek_ultimate_voice d) /\
  loop Samples.clock acquire_text d [Line "hello"] []
  = (Ret LISTENING,
     [Input (Py.nl +:+ "🧑 You: "); Think "hello";
      Stdout "🤖 Derek: It is sunny"]) /\
  spoken (snd (loop Samples.clock acquire_text d [Line "hello"] [])) = [].
Proof. split_and!; [by eexists | by vm_compute..]. Qed.

(** A line of blanks reaches the reasoner as the empty string; the same
    blanks from the recogniser reach it untouched. *)
Example blank_line_and_blank_audio :
  let d := Samples.dashboard (Some Samples.silent_brain) None None None in
  thoughts (snd (loop Samples.clock acquire_text d [Line "   "] [])) = [""] /\
  thoughts (snd (loop Samples.clock acquire_audio d [Heard "   "] []))
  = ["   "].
Proof. by vm_compute. Qed.

(** * Footprints of the operations *)

Section Footprints.

Context {A B : Type} (P : event -> Prop).

Lemma emits_ret (a : A) : emits P (mret a : M A).
Proof. intros t. exists []. by rewrite app_nil_r. Qed.

Lemma emits_raise (e : exn) : emits P (raise e : M A).
Proof. intros t. exists []. by rewrite app_nil_r. Qed.

Lemma emits_emit (ev : event) : P ev -> emits P (emit ev).
Proof. intros H t. exists [ev]. split; [done | by constructor]. Qed.

Lemma emits_call (ev : event) (oracle : trace -> outcome A) :
  P ev -> emits P (call ev oracle).
Proof. intros H t. exists [ev]. split; [done | by constructor]. Qed.

Lemma emits_bind (m : M A) (k : A -> M B) :
  emits P m -> (forall a, emits P (k a)) -> emits P (m ≫= k).
Proof.
  intros Hm Hk t. destruct (Hm t) as (evs & Ht & Hevs).
  unfold mbind, M_bind. destruct (m t) as [[a|e] t1]; simpl in Ht; subst t1.
  - destruct (Hk a (t ++ evs)) as (evs' & Ht' & Hevs').
    exists (evs ++ evs'). rewrite Ht', app_assoc. split; [done|].
    by apply Forall_app.
  - by exists evs.
Qed.

Lemma emits_try (body : M A) (h : exn -> M A) :
  emits P body -> (forall e, emits P (h e)) -> emits P (try_except body h).
Proof.
  intros Hm Hh t. destruct (Hm t) as (evs & Ht & Hevs).
  unfold try_except. destruct (body t) as [[a|e] t1]; simpl in Ht; subst t1.
  - by exists evs.
  - destruct (Hh e (t ++ evs)) as (evs' & Ht' & Hevs').
    exists (evs ++ evs'). rewrite Ht', app_assoc. split; [done|].
    by apply Forall_app.
Qed.

End Footprints.

Lemma emits_weaken {A} (P Q : event -> Prop) (m : M A) :
  (forall ev, P ev -> Q ev) -> emits P m -> emits Q m.
Proof.
  intros HPQ Hm t. destruct (Hm t) as (evs & Ht & Hevs).
  exists evs. split; [done|]. by eapply Forall_impl.
Qed.

(** Walks through a computation, leaving the events it meets. *)
Ltac footprint :=
  repeat first
    [ apply emits_ret | apply emits_raise
    | apply emits_emit | apply emits_call
    | apply emits_bind; [|intros ?]
    | apply emits_try; [|intros ?]
    | progress unfold logger, print, construct, not_callable, datetime_now
    | match goal with
      | |- emits _ (match ?x with _ => _ end) => destruct x
      | |- emits _ (if ?x then _ else _) => destruct x
      | |- emits _ (let _ := _ in _) => cbv zeta
      end ].

Ltac in_kinds := unfold allowed; cbn; tauto.

Lemma thoughts_allowed ks evs :
  ~ In KThink ks -> Forall (allowed ks) evs -> thoughts evs = [].
Proof.
  intros Hk. induction 1 as [|ev evs Hev _ IH]; [done|].
  destruct ev; try exact IH. by destruct Hk.
Qed.

Lemma stores_allowed ks evs :
  ~ In KStore ks -> Forall (allowed ks) evs -> stores evs = [].
Proof.
  intros Hk. induction 1 as [|ev evs Hev _ IH]; [done|].
  destruct ev; try exact IH. by destruct Hk.
Qed.

Lemma start_footprint d : emits (allowed [KLog; KSpeak]) (start d).
Proof. unfold start. footprint; in_kinds. Qed.

Lemma stop_footprint d : emits (allowed [KLog; KShutdown]) (stop d).
Proof. unfold stop. footprint; in_kinds. Qed.

Section FootprintsNow.
Variable now : trace -> Py.datetime.

Lemma datetime_now_footprint P : emits P (datetime_now now).
Proof. intros t. exists []. by rewrite app_nil_r. Qed.

Lemma process_message_footprint d message :
  emits (allowed [KLog; KThink; KStore]) (process_message now d message).
Proof.
  unfold process_message. footprint;
    first [apply datetime_now_footprint | in_kinds].
Qed.

End FootprintsNow.

Section LoopFootprints.
Variable now : trace -> Py.datetime.

Lemma dispatch_footprint P d text :
  (forall ev, allowed [KLog; KStdout; KSpeak; KThink; KStore] ev -> P ev) ->
  emits P (dispatch now d text).
Proof.
  intros HP. apply (emits_weaken _ _ _ HP).
  unfold dispatch, speak_unchecked. footprint; try in_kinds.
  eapply emits_weaken; [|apply process_message_footprint]. in_kinds.
Qed.

Lemma loop_footprint {I} P (acquire : I -> M (option string)) d script :
  (forall i, emits P (acquire i)) ->
  (forall ev, allowed [KLog; KStdout; KSpeak; KThink; KStore] ev -> P ev) ->
  emits P (loop now acquire d script).
Proof.
  intros Hacq HP. induction script as [|i rest IH]; simpl.
  - apply emits_ret.
  - apply emits_bind; [done|]. intros [text|]; [|done].
    unfold dispatch_then. apply emits_bind; [by apply dispatch_footprint|].
    intros []; [apply emits_ret | done].
Qed.

Lemma acquire_text_footprint i : emits (allowed [KAcquire]) (acquire_text i).
Proof. unfold acquire_text. footprint; in_kinds. Qed.

Lemma acquire_audio_footprint c :
  emits (allowed [KStdout; KAcquire]) (acquire_audio c).
Proof. unfold acquire_audio. footprint; in_kinds. Qed.

(** X1.  While the loop runs, in either mode, nothing is constructed, nothing
    is saved or stopped and no set-up call is made: every event is a log
    line, a printed line, a call of [think], [store] or [speak], or the
    acquisition of the next utterance. *)
Theorem loop_only_converses d lines captures :
  emits (allowed [KLog; KStdout; KSpeak; KThink; KStore; KAcquire])
    (loop now acquire_text d lines) /\
  emits (allowed [KLog; KStdout; KSpeak; KThink; KStore; KAcquire])
    (loop now acquire_audio d captures).
Proof.
  split; apply loop_footprint; try in_kinds; intros i;
    [ eapply emits_weaken; [|apply acquire_text_footprint]
    | eapply emits_weaken; [|apply acquire_audio_footprint] ]; in_kinds.
Qed.

Lemma dispatch_without_reasoner P d text :
  derek d = None ->
  (forall ev, allowed [KSpeak] ev -> P ev) ->
  P (Stdout "👋 Derek: Goodbye! See you next time.") ->
  P (Stdout "🤖 Derek: System not ready.") ->
  emits P (dispatch now d text).
Proof.
  intros Hd HP Hbye Hno. unfold dispatch, speak_unchecked, process_message.
  rewrite Hd. footprint; first [exact Hbye | exact Hno | apply HP; in_kinds].
Qed.

Lemma loop_without_reasoner {I} P (acquire : I -> M (option string)) d script :
  derek d = None ->
  (forall i, emits P (acquire i)) ->
  (forall ev, allowed [KSpeak] ev -> P ev) ->
  P (Stdout "👋 Derek: Goodbye! See you next time.") ->
  P (Stdout "🤖 Derek: System not ready.") ->
  emits P (loop now acquire d script).
Proof.
  intros Hd Hacq HP Hbye Hno. induction script as [|i rest IH]; simpl.
  - apply emits_ret.
  - apply emits_bind; [done|]. intros [text|]; [|done].
    unfold dispatch_then.
    apply emits_bind; [by apply dispatch_without_reasoner|].
    intros []; [apply emits_ret | done].
Qed.

Lemma unanswered_quiet evs :
  Forall unanswered evs -> thoughts evs = [] /\ stores evs = [].
Proof.
  induction 1 as [|ev evs Hev _ [IH1 IH2]]; [done|].
  destruct Hev as [Hk | [-> | ->]]; [|exact (conj IH1 IH2)..].
  destruct ev;
    first [exact (conj IH1 IH2)
          | unfold allowed in Hk; cbn in Hk; intuition discriminate].
Qed.

(** X2.  Without a reasoner the text loop never thinks and never stores: every
    utterance that is not a termination phrase is answered with the
    not-ready line, and nothing else is printed but the farewell. *)
Theorem no_reasoner_no_turn d lines t :
  derek d = None ->
  exists evs,
    snd (loop now acquire_text d lines t) = t ++ evs /\
    Forall unanswered evs /\ thoughts evs = [] /\ stores evs = [].
Proof.
  intros Hd.
  destruct (loop_without_reasoner unanswered acquire_text d lines Hd) with t
    as (evs & Ht & Hevs).
  - intros i. eapply emits_weaken; [|apply acquire_text_footprint].
    intros ev Hev. left. revert Hev. in_kinds.
  - intros ev Hev. left. revert Hev. in_kinds.
  - right. by left.
  - right. by right.
  - exists evs. split_and!; [done..| |]; by apply unanswered_quiet.
Qed.

End LoopFootprints.

(** * Turns and what they store *)

Lemma length_append (a b : string) :
  String.length (a +:+ b) = String.length a + String.length b.
Proof.
  induction a as [|c a IH]; [done|].
  rewrite PyFacts.append_cons. simpl. by rewrite IH.
Qed.

Section Turns.
Variable now : trace -> Py.datetime.

(** One turn with a reasoner: one [think] call, at most one [store]. *)
Lemma process_message_thinks d brain message t :
  derek d = Some brain ->
  exists reply evs,
    process_message now d message t = (Ret reply, t ++ evs) /\
    thoughts evs = [message] /\
    length (stores evs) <= 1 /\
    (memory d = None -> stores evs = []).
Proof.
  intros Hd. rewrite (process_message_present _ _ _ _ _ Hd). simpl.
  destruct (think brain t message); [destruct (memory d) as [mem|];
    [destruct (store mem _ _)|]|];
    trace_shape; eexists _, _; (split; [done|]); simpl; split_and!;
    first [done | lia].
Qed.

(** X3.  A turn stores at most one entry, and stores one exactly when the
    memory bridge is there and the reasoner returned.  The entry is a
    conversation entry of importance 0.7 whose content is the first 50
    characters of the message, an arrow and the first 50 characters of the
    reply that is returned, at most 104 characters in all. *)
Theorem turn_stores_at_most_one d message t :
  exists reply evs,
    process_message now d message t = (Ret reply, t ++ evs) /\
    length (stores evs) <= 1 /\
    (forall entry, In entry (stores evs) ->
       category entry = "conversation" /\
       importance entry = 7 # 10 /\
       content entry
       = Py.slice_to 50 message +:+ " -> " +:+ Py.slice_to 50 reply /\
       String.length (content entry) <= 104 /\
       metadata_timestamp entry
       = Py.isoformat (now (t ++ [Think message]))) /\
    (stores evs <> [] <->
     is_Some (memory d) /\
     exists brain response,
       derek d = Some brain /\ think brain t message = Ret response).
Proof.
  assert (Hlen : forall reply,
    String.length (Py.slice_to 50 message +:+ " -> "
                   +:+ Py.slice_to 50 reply) <= 104).
  { intros reply. rewrite !length_append.
    pose proof (PyFacts.slice_to_length 50 message).
    pose proof (PyFacts.slice_to_length 50 reply).
    change (String.length " -> ") with 4. lia. }
  destruct (derek d) as [brain|] eqn:Hd.
  - rewrite (process_message_present _ _ _ _ _ Hd). simpl.
    destruct (think brain t message) as [response|e] eqn:Hthink.
    + destruct (memory d) as [mem|] eqn:Hm.
      * destruct (store mem _ _); trace_shape; eexists _, _;
          (split; [done|]); simpl;
          (split_and!; [lia | | ]);
          [ intros entry [<- | []]; split_and!; [done..| apply Hlen | done]
          | split; [intros _; split; [by eexists | by eexists _, _] | done]
          | intros entry [<- | []]; split_and!; [done..| apply Hlen | done]
          | split; [intros _; split; [by eexists | by eexists _, _] | done] ].
      * eexists _, _. split; [done|]. simpl. split_and!; [lia | done |].
        split; [done | by intros [[? ?] _]].
    + trace_shape. eexists _, _. split; [done|]. simpl.
      split_and!; [lia | done |]. split; [done|].
      intros (_ & b & r & ? & ?). simplify_eq. congruence.
  - rewrite process_message_absent by done.
    exists "System not ready.", []. rewrite app_nil_r.
    split_and!; [done | simpl; lia | done |].
    split; [done | by intros (_ & b & r & ? & _)].
Qed.

(** What the loop hands to [think], and how much it stores. *)
Lemma loop_dispatches {I} (acquire : I -> M (option string))
    (heard : I -> outcome (option string)) d brain script :
  derek d = Some brain ->
  (forall i t, exists evs,
     acquire i t = (heard i, t ++ evs) /\
     thoughts evs = [] /\ stores evs = []) ->
  forall t, exists evs,
    snd (loop now acquire d script t) = t ++ evs /\
    thoughts evs = dispatched heard script /\
    length (stores evs) <= length (dispatched heard script) /\
    (memory d = None -> stores evs = []).
Proof.
  intros Hd Hacq. induction script as [|i rest IH]; intros t.
  - exists []. by rewrite app_nil_r.
  - destruct (Hacq i t) as (evs0 & Ha & Hth0 & Hst0).
    simpl loop. unfold mbind at 1. unfold M_bind at 1. rewrite Ha.
    simpl dispatched. destruct (heard i) as [[text|]|e].
    + unfold dispatch_then. unfold mbind at 1. unfold M_bind at 1.
      destruct (is_termination text) eqn:Hterm.
      * rewrite dispatch_farewell by done. cbv zeta.
        destruct (derek_ultimate_voice d) as [v|];
          [destruct (speak v) as [f|]; [destruct (f _ _) as [[]|?]|]|];
          run; trace_shape; eexists; (split; [done|]);
          unfold thoughts, stores in *; rewrite !omap_app, Hth0, Hst0;
          simpl; split_and!; done.
      * destruct (process_message_thinks d brain text (t ++ evs0) Hd)
          as (reply & evs1 & Hp & Hth1 & Hst1 & Hno1).
        rewrite (dispatch_turn _ _ _ _ _ _ Hterm Hp).
        destruct (IH (((t ++ evs0) ++ evs1)
                      ++ [Stdout ("🤖 Derek: " +:+ reply)]))
          as (evs2 & Ht2 & Hth2 & Hst2 & Hno2).
        rewrite Ht2.
        exists (evs0 ++ evs1 ++ [Stdout ("🤖 Derek: " +:+ reply)] ++ evs2).
        split; [by rewrite <- !app_assoc|].
        unfold thoughts, stores in *.
        rewrite !omap_app, !length_app, Hth0, Hst0, Hth1, Hth2. simpl.
        split_and!; [done | lia |].
        intros Hm. by rewrite Hno1, Hno2.
    + destruct (IH (t ++ evs0)) as (evs1 & Ht1 & Hth1 & Hst1 & Hno1).
      rewrite Ht1. exists (evs0 ++ evs1). rewrite app_assoc.
      split; [done|]. unfold thoughts, stores in *.
      rewrite !omap_app, Hth0, Hst0. simpl. split_and!; done.
    + exists evs0. simpl. rewrite Hth0, Hst0. split_and!; done || (simpl; lia).
Qed.

Lemma acquire_text_heard i t :
  exists evs,
    acquire_text i t = (heard_text i, t ++ evs) /\
    thoughts evs = [] /\ stores evs = [].
Proof. destruct i; eexists; split; done. Qed.

Lemma acquire_audio_heard c t :
  exists evs,
    acquire_audio c t = (heard_audio c, t ++ evs) /\
    thoughts evs = [] /\ stores evs = [].
Proof.
  destruct c; unfold acquire_audio; run; trace_shape; eexists; split; done.
Qed.

(** X4.  In text mode the reasoner is asked, in order, about the stripped
    lines that come before the first termination phrase and the first
    input error, about nothing else, and nothing is stored that was not
    asked. *)
Theorem text_loop_asks_each_line_once d brain lines t :
  derek d = Some brain ->
  exists evs,
    snd (loop now acquire_text d lines t) = t ++ evs /\
    thoughts evs = dispatched heard_text lines /\
    length (stores evs) <= length (dispatched heard_text lines) /\
    (memory d = None -> stores evs = []).
Proof.
  intros Hd.
  apply (loop_dispatches acquire_text heard_text d brain lines Hd).
  apply acquire_text_heard.
Qed.

(** X5.  In audio mode the reasoner is asked, in order, about what was
    recognised before the first termination phrase and the first capture
    error; a recognition error is skipped. *)
Theorem audio_loop_asks_each_utterance_once d brain captures t :
  derek d = Some brain ->
  exists evs,
    snd (loop now acquire_audio d captures t) = t ++ evs /\
    thoughts evs = dispatched heard_audio captures /\
    length (stores evs) <= length (dispatched heard_audio captures) /\
    (memory d = None -> stores evs = []).
Proof.
  intros Hd.
  apply (loop_dispatches acquire_audio heard_audio d brain captures Hd).
  apply acquire_audio_heard.
Qed.

End Turns.

(** * Start-up, set-up and the whole program *)

Lemma start_run d t :
  exists evs,
    start d t = (Ret tt, t ++ evs) /\
    spoken evs =
      match derek_ultimate_voice d with
      | Some v =>
          match speak v with
          | Some _ => ["Hello, I am Derek, ready to assist you."]
          | None => []
          end
      | None => []
      end /\
    Forall (allowed [KLog; KSpeak]) evs.
Proof.
  unfold start. destruct (derek_ultimate_voice d) as [v|].
  - destruct (speak v) as [f|]; run;
      [destruct (f _ _) as [[]|e]; run|]; trace_shape; eexists;
      (split; [reflexivity|]); (split; [reflexivity|]);
      repeat (constructor; [in_kinds|]); constructor.
  - run. eexists. split; [reflexivity|]. split; [reflexivity|].
    repeat (constructor; [in_kinds|]); constructor.
Qed.

(** X6.  [start] never raises.  The greeting is handed to [speak] exactly
    when a voice with that method is there; a [speak] that raises is
    caught; and besides that call [start] only writes to the log: the
    greeting is not printed, and neither the reasoner nor the memory is
    touched. *)
Theorem start_never_raises d t :
  exists evs,
    start d t = (Ret tt, t ++ evs) /\
    spoken evs =
      match derek_ultimate_voice d with
      | Some v =>
          match speak v with
          | Some _ => ["Hello, I am Derek, ready to assist you."]
          | None => []
          end
      | None => []
      end /\
    printed evs = [] /\ thoughts evs = [] /\ stores evs = [] /\
    Forall (allowed [KLog; KSpeak]) evs.
Proof.
  destruct (start_run d t) as (evs & Hrun & Hsp & Hk).
  exists evs. split_and!; [done..| | | |done].
  - clear Hrun Hsp. induction Hk as [|ev evs Hev _ IH]; [done|].
    destruct ev; first [exact IH | unfold allowed in Hev; cbn in Hev;
                                   intuition discriminate].
  - eapply thoughts_allowed; [|done]. cbn. intuition discriminate.
  - eapply stores_allowed; [|done]. cbn. intuition discriminate.
Qed.

Lemma initialize_microphone_run sr t :
  exists evs,
    initialize_microphone sr t = (Ret (microphone_ok sr), t ++ evs) /\
    Forall (allowed [KStdout; KSetup]) evs.
Proof.
  unfold initialize_microphone, microphone_ok.
  destruct (list_microphone_names sr) as [names|e]; run.
  - destruct (Microphone sr 2) as [[]|e]; run.
    + destruct (names !! 2) as [name|] eqn:Hname; run.
      * apply lookup_lt_Some in Hname.
        rewrite bool_decide_eq_true_2 by done. trace_shape. eexists.
        split; [done|]. repeat (constructor; [in_kinds|]); constructor.
      * apply lookup_ge_None in Hname.
        rewrite bool_decide_eq_false_2 by lia. trace_shape. eexists.
        split; [done|]. repeat (constructor; [in_kinds|]); constructor.
    + trace_shape. eexists.
      split; [done|]. repeat (constructor; [in_kinds|]); constructor.
  - trace_shape. eexists.
    split; [done|]. repeat (constructor; [in_kinds|]); constructor.
Qed.

(** X7.  The microphone set-up never raises and answers whether the
    microphone is in use: it is exactly when the names could be listed,
    device 2 opened and the list has at least three names.  Every other
    case, a listing or an opening that raises or a list that is too short,
    falls back to text input. *)
Theorem microphone_or_text_input sr t :
  exists evs,
    initialize_microphone sr t = (Ret (microphone_ok sr), t ++ evs) /\
    (microphone_ok sr = true <->
     exists names,
       list_microphone_names sr = Ret names /\
       Microphone sr 2 = Ret tt /\ 2 < length names) /\
    thoughts evs = [] /\ stores evs = [] /\ spoken evs = [].
Proof.
  destruct (initialize_microphone_run sr t) as (evs & Hrun & Hk).
  exists evs. split_and!; [done| | | |].
  - unfold microphone_ok.
    destruct (list_microphone_names sr) as [names|e];
      [destruct (Microphone sr 2) as [[]|e]|].
    + rewrite bool_decide_eq_true. split; [by exists names|].
      by intros (names' & [= <-] & _ & ?).
    + split; [done | by intros (? & _ & ? & _)].
    + split; [done | by intros (? & ? & _)].
  - eapply thoughts_allowed; [|done]. cbn. intuition discriminate.
  - eapply stores_allowed; [|done]. cbn. intuition discriminate.
  - clear Hrun. induction Hk as [|ev evs Hev _ IH]; [done|].
    destruct ev; first [exact IH | unfold allowed in Hev; cbn in Hev;
                                   intuition discriminate].
Qed.

Lemma core_initialization_footprint ld :
  emits (allowed [KLog; KConstruct]) (core_initialization ld).
Proof. unfold core_initialization. footprint; in_kinds. Qed.

Lemma DerekDashboard_init_footprint ld v m :
  emits (allowed [KLog; KConstruct]) (DerekDashboard_init ld v m).
Proof. unfold DerekDashboard_init. footprint; in_kinds. Qed.

Lemma main_setup_footprint sr d :
  emits (allowed [KLog; KStdout; KSpeak; KSetup]) (main_setup sr d).
Proof.
  unfold main_setup, initialize_microphone.
  apply emits_bind; [|intros ?].
  { eapply emits_weaken; [|apply start_footprint]. in_kinds. }
  footprint; in_kinds.
Qed.

(** [stop] on a dashboard without a vision engine. *)
Lemma stop_without_vision P d :
  vision d = None ->
  (forall ev, allowed [KLog] ev -> P ev) ->
  P SaveEngine -> P SaveMemory ->
  emits P (stop d).
Proof.
  intros Hv HP He Hm. unfold stop. rewrite Hv.
  footprint; first [exact He | exact Hm | apply HP; in_kinds].
Qed.

(** [stop] returns, and its last word is the log line that says so. *)
Lemma stop_returns d t :
  exists evs,
    stop d t
    = (Ret tt, t ++ evs ++ [Log INFO "🛑 Derek Dashboard stopped cleanly."]).
Proof.
  unfold stop.
  destruct (memory_engine d) as [me|], (memory d) as [mem|],
           (vision d) as [v|]; run;
    repeat first
      [ progress run
      | match goal with
        | |- context [engine_save ?a ?b] => destruct (engine_save a b) as [[]|?]
        | |- context [save ?a ?b] => destruct (save a b) as [[]|?]
        | |- context [vision_stop ?a ?b] => destruct (vision_stop a b) as [[]|?]
        end ];
    trace_shape;
    repeat match goal with
           | |- exists evs, (_, ?t ++ ?l) = (_, ?t ++ evs ++ [?x]) =>
               let l' := eval cbn in (removelast l) in
               exists l'; reflexivity
           end.
Qed.

(** [stop] returns, and frames what it does with its two INFO lines. *)
Lemma stop_logs d t :
  exists evs,
    stop d t = (Ret tt, t ++ evs) /\
    logged INFO evs =
      ["🧠 Shutting down Derek Dashboard services...";
       "🛑 Derek Dashboard stopped cleanly."].
Proof.
  unfold stop.
  destruct (memory_engine d) as [me|], (memory d) as [mem|],
           (vision d) as [v|]; run;
    repeat first
      [ progress run
      | match goal with
        | |- context [engine_save ?a ?b] => destruct (engine_save a b) as [[]|?]
        | |- context [save ?a ?b] => destruct (save a b) as [[]|?]
        | |- context [vision_stop ?a ?b] => destruct (vision_stop a b) as [[]|?]
        end ];
    trace_shape; eexists; split; done.
Qed.

Section Program.
Variable now : trace -> Py.datetime.

Lemma main_body_footprint sr d captures lines :
  emits (allowed [KLog; KStdout; KSpeak; KThink; KStore; KSetup; KAcquire])
    (main_body now sr d captures lines).
Proof.
  unfold main_body. apply emits_bind.
  { eapply emits_weaken; [|apply main_setup_footprint]. in_kinds. }
  intros []; apply loop_footprint; try in_kinds; intros i;
    [ eapply emits_weaken; [|apply acquire_audio_footprint]
    | eapply emits_weaken; [|apply acquire_text_footprint] ]; in_kinds.
Qed.

Lemma fatal_footprint e : emits (allowed [KLog]) (fatal e).
Proof. unfold fatal. footprint; in_kinds. Qed.

(** [main] returns a status, and appends events of which the shutdown
    calls can only be the two saves. *)
Lemma main_run P ld v m sr captures lines t :
  (forall ev,
     allowed [KLog; KStdout; KConstruct; KSpeak; KThink; KStore; KSetup;
              KAcquire] ev -> P ev) ->
  P SaveEngine -> P SaveMemory ->
  exists st evs,
    main now ld v m sr captures lines t = (Ret st, t ++ evs) /\
    Forall P evs /\
    (st = TERMINATED ->
     exists pre,
       evs = pre ++ [Log INFO "🛑 Derek Dashboard stopped cleanly."]).
Proof.
  intros HP He Hm. unfold main.
  destruct (DerekDashboard_init_run ld v m t)
    as (d & evs1 & Hinit & _ & _ & Hvision & _).
  destruct (DerekDashboard_init_footprint ld v m t) as (evs1' & H1 & HP1).
  rewrite Hinit in *. simpl in H1. apply app_inv_head in H1 as <-.
  cbv zeta. unfold mbind at 1. unfold M_bind at 1.
  assert (Hbody : emits (allowed [KLog; KStdout; KSpeak; KThink; KStore;
                                  KSetup; KAcquire])
            (try_except (main_body now sr d captures lines) fatal)).
  { apply emits_try; [apply main_body_footprint|]. intros e.
    eapply emits_weaken; [|apply fatal_footprint]. in_kinds. }
  destruct (Hbody (t ++ evs1)) as (evs2 & H2 & HP2).
  assert (Hret : exists st,
    fst (try_except (main_body now sr d captures lines) fatal (t ++ evs1))
    = Ret st).
  { unfold try_except.
    destruct (main_body now sr d captures lines (t ++ evs1)) as [[st|e] t'];
      [by exists st | by exists TERMINATED]. }
  destruct Hret as [st Hst].
  destruct (try_except _ fatal (t ++ evs1)) as [o t2].
  simpl in H2, Hst. subst o t2.
  assert (HPall : Forall P (evs1 ++ evs2)).
  { apply Forall_app. split; (eapply Forall_impl; [done|]);
      intros ev Hev; apply HP; revert Hev; in_kinds. }
  destruct st.
  - exists LISTENING, (evs1 ++ evs2). run. rewrite app_assoc.
    split_and!; done.
  - destruct (stop_returns d ((t ++ evs1) ++ evs2)) as (evs3 & Hstop).
    destruct (stop_without_vision P d Hvision) with ((t ++ evs1) ++ evs2)
      as (evs3' & H3 & HP3); [intros ev Hev; apply HP; revert Hev; in_kinds
                             | done..|].
    rewrite Hstop in H3. simpl in H3. apply app_inv_head in H3 as <-.
    unfold mbind at 1. unfold M_bind at 1. rewrite Hstop.
    exists TERMINATED,
      (evs1 ++ evs2 ++ evs3 ++ [Log INFO "🛑 Derek Dashboard stopped cleanly."]).
    split_and!.
    + unfold mret, M_ret. by rewrite <- !app_assoc.
    + rewrite app_assoc. by apply Forall_app.
    + intros _. exists (evs1 ++ evs2 ++ evs3). by rewrite <- !app_assoc.
Qed.


(** X9.  The vision branch of [stop] is never taken: the constructor leaves
    [self.vision] at [None] and nothing sets it, so that no run of the
    program, whatever the environment, calls [vision.stop()]. *)
Theorem vision_is_never_stopped ld sr captures lines :
  emits (fun ev => ev <> StopVision) (program now ld sr captures lines).
Proof.
  intros t. unfold program.
  destruct (core_initialization_run ld t) as (v & m & evs0 & Hcore & _).
  destruct (core_initialization_footprint ld t) as (evs0' & H0 & HP0).
  rewrite Hcore in H0. simpl in H0. apply app_inv_head in H0 as <-.
  unfold mbind, M_bind. rewrite Hcore.
  destruct (main_run (fun ev => ev <> StopVision) ld v m sr captures lines
              (t ++ evs0)) as (st & evs & Hmain & HP & _);
    [intros [] Hev; first [done | unfold allowed in Hev; cbn in Hev;
                                  intuition discriminate]
    | done..|].
  rewrite Hmain. exists (evs0 ++ evs). rewrite app_assoc. split; [done|].
  apply Forall_app. split; [|done].
  eapply Forall_impl; [done|].
  intros [] Hev; first [done | unfold allowed in Hev; cbn in Hev;
                               intuition discriminate].
Qed.

End Program.

Section Failures.
Variable now : trace -> Py.datetime.

(** How the set-up of [main] ends. *)
Lemma main_setup_outcome sr d t :
  fst (main_setup sr d t) =
  match import_sr sr with
  | Raise e => Raise e
  | Ret _ =>
      if microphone_ok sr then
        match adjust_for_ambient_noise sr with
        | Ret _ => Ret true
        | Raise e => Raise e
        end
      else Ret false
  end.
Proof.
  unfold main_setup. destruct (start_run d t) as (evs & Hstart & _).
  unfold mbind at 1. unfold M_bind at 1. rewrite Hstart.
  do 3 (unfold mbind at 1; unfold M_bind at 1; unfold print at 1;
        unfold emit at 1).
  unfold mbind at 1. unfold M_bind at 1. unfold call at 1.
  destruct (import_sr sr) as [[]|e]; [|done].
  unfold mbind at 1. unfold M_bind at 1.
  match goal with |- context [initialize_microphone sr ?h] =>
    destruct (initialize_microphone_run sr h) as (evs' & -> & _) end.
  destruct (microphone_ok sr); run; [|done].
  by destruct (adjust_for_ambient_noise sr) as [[]|e].
Qed.

(** X10.  A set-up that fails is fatal.  When the speech package cannot be
    imported, or when the microphone is in use and its calibration raises,
    [main] logs the error as fatal, runs [stop] and returns: what follows
    the fatal line is exactly what [stop] does on the dashboard that was
    built, and what precedes it is the construction and the set-up, so
    that no input is read, in either mode, and no turn takes place. *)
Theorem setup_failure_is_fatal ld v m sr captures lines t e :
  import_sr sr = Raise e \/
  (import_sr sr = Ret tt /\ microphone_ok sr = true /\
   adjust_for_ambient_noise sr = Raise e) ->
  exists d evs0 evs1 evs2,
    let t_fatal :=
      ((t ++ evs0) ++ evs1) ++ [Log ERROR ("Fatal error: " +:+ str e)] in
    DerekDashboard_init ld v m t = (Ret d, t ++ evs0) /\
    stop d t_fatal = (Ret tt, t_fatal ++ evs2) /\
    main now ld v m sr captures lines t = (Ret TERMINATED, t_fatal ++ evs2) /\
    logged INFO evs2 =
      ["🧠 Shutting down Derek Dashboard services...";
       "🛑 Derek Dashboard stopped cleanly."] /\
    Forall (allowed [KLog; KConstruct]) evs0 /\
    Forall (allowed [KLog; KStdout; KSpeak; KSetup]) evs1 /\
    Forall (allowed [KLog; KShutdown]) evs2.
Proof.
  intros Hfail. unfold main.
  destruct (DerekDashboard_init_run ld v m t) as (d & evs0 & Hinit & _).
  destruct (DerekDashboard_init_footprint ld v m t) as (evs0' & H0 & HP0).
  rewrite Hinit in *. simpl in H0. apply app_inv_head in H0 as <-.
  cbv zeta. unfold mbind at 1. unfold M_bind at 1.
  unfold main_body. rewrite try_except_bind.
  destruct (main_setup_footprint sr d (t ++ evs0)) as (evs1 & H1 & HP1).
  pose proof (main_setup_outcome sr d (t ++ evs0)) as Hout.
  destruct (main_setup sr d (t ++ evs0)) as [o t1]. simpl in H1, Hout.
  subst t1.
  assert (o = Raise e) as ->.
  { rewrite Hout. destruct Hfail as [-> | (-> & -> & ->)]; done. }
  unfold fatal. run.
  set (t_fatal := ((t ++ evs0) ++ evs1)
                  ++ [Log ERROR ("Fatal error: " +:+ str e)]).
  destruct (stop_footprint d t_fatal) as (evs2' & H2 & HP2).
  destruct (stop_logs d t_fatal) as (evs2 & Hstop & Hinfo).
  rewrite Hstop in *. simpl in H2. apply app_inv_head in H2 as <-.
  exists d, evs0, evs1, evs2. split_and!; done.
Qed.

(** X11.  An input that cannot be acquired ends the session.  When [input]
    raises (end of file, say) in text mode, or [listen] raises in audio
    mode, the error leaves the loop and is logged as fatal by [main]'s
    handler; what was still to come is never read. *)
Theorem acquisition_error_ends_session d e lines captures t :
  try_except (loop now acquire_text d (InputFails e :: lines)) fatal t
  = (Ret TERMINATED,
     t ++ [Input (Py.nl +:+ "🧑 You: ");
           Log ERROR ("Fatal error: " +:+ str e)]) /\
  try_except (loop now acquire_audio d (CaptureFails e :: captures)) fatal t
  = (Ret TERMINATED,
     t ++ [Stdout (Py.nl +:+ "👂 Listening..."); Listen 15 40;
           Log ERROR ("Fatal error: " +:+ str e)]).
Proof.
  split; unfold try_except, fatal; simpl loop;
    unfold acquire_text, acquire_audio; run; by trace_shape.
Qed.

End Failures.

(** * Lower case, white space and the vocabulary *)

Module PyMore.
Import Py.

Lemma lower_char_idempotent (c : ascii) : lower_char (lower_char c) = lower_char c.
Proof. by destruct c as [[] [] [] [] [] [] [] []]. Qed.

Lemma lower_idempotent (s : string) : lower (lower s) = lower s.
Proof.
  induction s as [|c s IH]; [done|].
  simpl. by rewrite lower_char_idempotent, IH.
Qed.

Lemma lower_append (a b : string) : lower (a +:+ b) = lower a +:+ lower b.
Proof.
  induction a as [|c a IH]; [done|].
  rewrite PyFacts.append_cons. simpl. by rewrite IH, PyFacts.append_cons.
Qed.

(** The letters that [lower] sends to a given small letter of "true". *)
Lemma lower_char_is (c : ascii) :
  (lower_char c = "t"%char <-> c = "t"%char \/ c = "T"%char) /\
  (lower_char c = "r"%char <-> c = "r"%char \/ c = "R"%char) /\
  (lower_char c = "u"%char <-> c = "u"%char \/ c = "U"%char) /\
  (lower_char c = "e"%char <-> c = "e"%char \/ c = "E"%char).
Proof.
  destruct c as [[] [] [] [] [] [] [] []]; vm_compute;
    repeat split; intros; try discriminate; auto;
    repeat match goal with H : _ \/ _ |- _ => destruct H end; discriminate.
Qed.

Lemma rstrip_blank (s : string) : blank s = true -> rstrip s = "".
Proof.
  induction s as [|c s IH]; [done|]. simpl.
  intros [Hc Hs]%andb_true_iff. by rewrite IH, Hc.
Qed.

Lemma lstrip_blank_prefix (pre s : string) :
  blank pre = true -> lstrip (pre +:+ s) = lstrip s.
Proof.
  induction pre as [|c pre IH]; [done|]. cbn [blank].
  intros [Hc Hs]%andb_true_iff. rewrite PyFacts.append_cons. cbn [lstrip].
  rewrite Hc. auto.
Qed.

Lemma rstrip_blank_suffix (s post : string) :
  blank post = true -> rstrip (s +:+ post) = rstrip s.
Proof.
  intros Hpost. induction s as [|c s IH].
  - by apply rstrip_blank.
  - rewrite PyFacts.append_cons. cbn [rstrip]. by rewrite IH.
Qed.

Lemma strip_blank_suffix (s post : string) :
  blank post = true -> strip (s +:+ post) = strip s.
Proof.
  intros Hpost. unfold strip. induction s as [|c s IH].
  - change ("" +:+ post) with post.
    by rewrite PyFacts.lstrip_blank.
  - rewrite PyFacts.append_cons. cbn [lstrip]. destruct (isspace c); [done|].
    rewrite <- PyFacts.append_cons. by apply rstrip_blank_suffix.
Qed.

(** White space around a string does not survive [strip]. *)
Lemma strip_surrounded (pre s post : string) :
  blank pre = true -> blank post = true ->
  strip (pre +:+ s +:+ post) = strip s.
Proof.
  intros Hpre Hpost. unfold strip. rewrite lstrip_blank_prefix by done.
  by apply strip_blank_suffix.
Qed.

End PyMore.

(** X12.  The vocabulary test looks for the words anywhere and in any
    letter case: an utterance that contains a termination phrase, with
    anything before and after it, is a termination phrase, and so is an
    utterance exactly when its lower-case form is one. *)
Theorem termination_by_substring text pre post :
  (is_termination text = true ->
   is_termination (pre +:+ text +:+ post) = true) /\
  is_termination (Py.lower text) = is_termination text.
Proof.
  split.
  - rewrite !is_termination_spec.
    intros (word & Hword & a & b & Hlow). exists word. split; [done|].
    exists (Py.lower pre +:+ a), (b +:+ Py.lower post).
    rewrite !PyMore.lower_append, Hlow.
    by rewrite !PyFacts.append_assoc.
  - unfold is_termination. by rewrite PyMore.lower_idempotent.
Qed.

Section Blanks.
Variable now : trace -> Py.datetime.

(** X13.  White space around a typed line changes nothing: the loop does
    with the padded line exactly what it does with the line. *)
Theorem surrounding_blanks_are_ignored d pre s post rest t :
  Py.blank pre = true -> Py.blank post = true ->
  loop now acquire_text d (Line (pre +:+ s +:+ post) :: rest) t
  = loop now acquire_text d (Line s :: rest) t.
Proof.
  intros Hpre Hpost.
  assert (Hloop : forall line,
    loop now acquire_text d (Line line :: rest) t
    = dispatch_then now d (Py.strip line) (loop now acquire_text d rest)
        (t ++ [Input (Py.nl +:+ "🧑 You: ")])) by done.
  by rewrite !Hloop, PyMore.strip_surrounded.
Qed.

End Blanks.

(** X14.  Vision is enabled by sixteen spellings only: [ENABLE_VISION] holds
    exactly when DEREK_VISION is set to the four letters of "true", each in
    either case, with nothing around them.  Unset, empty or padded with
    white space, the variable leaves vision disabled. *)
Theorem vision_flag_spellings (environ : gmap string string) :
  ENABLE_VISION environ = true <->
  exists c1 c2 c3 c4,
    environ !! "DEREK_VISION"
    = Some (String c1 (String c2 (String c3 (String c4 "")))) /\
    (c1 = "t" \/ c1 = "T")%char /\ (c2 = "r" \/ c2 = "R")%char /\
    (c3 = "u" \/ c3 = "U")%char /\ (c4 = "e" \/ c4 = "E")%char.
Proof.
  unfold ENABLE_VISION, getenv. rewrite bool_decide_eq_true.
  destruct (environ !! "DEREK_VISION") as [value|]; simpl.
  - split.
    + destruct value as [|c1 [|c2 [|c3 [|c4 [|c5 rest]]]]]; try done.
      simpl. intros [= H1 H2 H3 H4].
      exists c1, c2, c3, c4. split; [done|].
      split_and!; by apply PyMore.lower_char_is.
    + intros (c1 & c2 & c3 & c4 & [= ->] & H1 & H2 & H3 & H4). simpl.
      apply (PyMore.lower_char_is c1) in H1.
      apply (PyMore.lower_char_is c2) in H2.
      apply (PyMore.lower_char_is c3) in H3.
      apply (PyMore.lower_char_is c4) in H4.
      by rewrite H1, H2, H3, H4.
  - split; [done | by intros (? & ? & ? & ? & ? & _)].
Qed.

(** * What initialization reports *)

(** X15.  The module-level block reports one thing.  When a constructor
    raised, it is the error of the first one that did, and both handles
    are dropped.  Otherwise it is the success line, also when a class, or
    both, are missing and nothing was built. *)
Theorem core_initialization_reports ld t :
  exists v m evs,
    core_initialization ld t = (Ret (v, m), t ++ evs) /\
    match
      match cls_DerekUltimateVoice ld, cls_MemoryMeshBridge ld with
      | Some (Raise e), _ => Some e
      | _, Some (Raise e) => Some e
      | _, _ => None
      end
    with
    | Some e =>
        v = None /\ m = None /\
        logged ERROR evs = ["❌ Initialization failure: " +:+ str e] /\
        logged INFO evs = []
    | None =>
        v = built (cls_DerekUltimateVoice ld) /\
        m = built (cls_MemoryMeshBridge ld) /\
        logged ERROR evs = [] /\
        logged INFO evs = ["✅ Derek Core Modules initialized successfully"]
    end.
Proof.
  unfold core_initialization.
  destruct (cls_DerekUltimateVoice ld) as [[v|e]|],
           (cls_MemoryMeshBridge ld) as [[m|e']|]; run; trace_shape;
    eexists _, _, _; (split; [reflexivity|]); done.
Qed.

(** X16.  The constructor of the dashboard reports every constructor that
    raised, with its message: the reasoner at ERROR, the three optional
    services at WARNING.  An optional class that is missing is passed over
    in silence; a missing [Derek] class is reported as the failed call of
    [None].  Each attribute holds what its constructor returned, or
    [None]. *)
Theorem DerekDashboard_init_reports ld v m t :
  exists d evs,
    DerekDashboard_init ld v m t = (Ret d, t ++ evs) /\
    derek d = built (cls_Derek ld) /\
    perplexity_service d = built (cls_PerplexityService ld) /\
    memory_engine d = built (cls_MemoryEngine ld) /\
    conversation_engine d = built (cls_ConversationEngine ld) /\
    logged ERROR evs =
      match cls_Derek ld with
      | Some (Ret _) => []
      | Some (Raise e) => ["Derek initialization failed: " +:+ str e]
      | None =>
          ["Derek initialization failed: 'NoneType' object is not callable"]
      end /\
    logged WARNING evs =
      complaint "Perplexity unavailable: " (cls_PerplexityService ld) ++
      complaint "Memory Engine unavailable: " (cls_MemoryEngine ld) ++
      complaint "Conversation Engine unavailable: " (cls_ConversationEngine ld).
Proof.
  unfold DerekDashboard_init.
  destruct (cls_Derek ld) as [[d|e1]|],
           (cls_PerplexityService ld) as [[p|e2]|],
           (cls_MemoryEngine ld) as [[me|e3]|],
           (cls_ConversationEngine ld) as [[ce|e4]|]; run; trace_shape;
    eexists _, _; (split; [reflexivity|]); done.
Qed.

(** * The statements above on sample runs *)

(** Two typed lines and no reasoner. *)
Lemma no_reasoner_no_turn_witness :
  exists evs,
    snd (loop Samples.clock acquire_text
           (Samples.dashboard None (Some Samples.good_memory) None None)
           [Line "hello"; Line "quit"] []) = evs /\
    thoughts evs = [] /\ stores evs = [].
Proof.
  destruct (no_reasoner_no_turn Samples.clock
              (Samples.dashboard None (Some Samples.good_memory) None None)
              [Line "hello"; Line "quit"] [] eq_refl)
    as (evs & Hrun & _ & Hthink & Hstore).
  exists evs. split_and!; [exact Hrun | exact Hthink | exact Hstore].
Defined.

(** A padded line, a termination phrase, and a line that is never read. *)
Lemma text_loop_asks_each_line_once_witness :
  exists evs,
    snd (loop Samples.clock acquire_text
           (Samples.dashboard (Some Samples.sunny_brain)
              (Some Samples.good_memory) None None)
           [Line "  hi there "; Line "please stop"; Line "too late"] [])
    = evs /\
    thoughts evs = ["hi there"].
Proof.
  destruct (text_loop_asks_each_line_once Samples.clock
              (Samples.dashboard (Some Samples.sunny_brain)
                 (Some Samples.good_memory) None None)
              Samples.sunny_brain
              [Line "  hi there "; Line "please stop"; Line "too late"] []
              eq_refl)
    as (evs & Hrun & Hthink & _).
  exists evs. split; [exact Hrun | exact Hthink].
Defined.

(** A recognition error, an utterance, a capture error, and an utterance
    that is never heard. *)
Lemma audio_loop_asks_each_utterance_once_witness :
  exists evs,
    snd (loop Samples.clock acquire_audio
           (Samples.dashboard (Some Samples.sunny_brain) None None None)
           [RecognitionFails (Exception "unintelligible");
            Heard " hi there ";
            CaptureFails (Exception "timed out");
            Heard "too late"] [])
    = evs /\
    thoughts evs = [" hi there "].
Proof.
  destruct (audio_loop_asks_each_utterance_once Samples.clock
              (Samples.dashboard (Some Samples.sunny_brain) None None None)
              Samples.sunny_brain
              [RecognitionFails (Exception "unintelligible");
               Heard " hi there ";
               CaptureFails (Exception "timed out");
               Heard "too late"] [] eq_refl)
    as (evs & Hrun & Hthink & _).
  exists evs. split; [exact Hrun | exact Hthink].
Defined.

(** The speech package is not installed: a line is waiting and is never
    read. *)
Lemma setup_failure_is_fatal_witness :
  exists evs,
    main Samples.clock Samples.only_voice_fails None None
      Samples.missing_package [] [Line "hello"] []
    = (Ret TERMINATED, evs) /\
    In (Log ERROR "Fatal error: No module named 'speech_recognition'") evs.
Proof.
  destruct (setup_failure_is_fatal Samples.clock Samples.only_voice_fails
              None None Samples.missing_package [] [Line "hello"] []
              (Exception "No module named 'speech_recognition'")
              (or_introl eq_refl))
    as (d & evs0 & evs1 & evs2 & _ & _ & Hrun & _).
  eexists. split; [exact Hrun|].
  rewrite !in_app_iff. left. right. by left.
Defined.

(** A line typed with blanks around it. *)
Lemma surrounding_blanks_are_ignored_witness :
  loop Samples.clock acquire_text
    (Samples.dashboard (Some Samples.sunny_brain) None None None)
    [Line "   hello  "] []
  = loop Samples.clock acquire_text
      (Samples.dashboard (Some Samples.sunny_brain) None None None)
      [Line "hello"] [].
Proof.
  exact (surrounding_blanks_are_ignored Samples.clock
           (Samples.dashboard (Some Samples.sunny_brain) None None None)
           "   " "hello" "  " [] [] eq_refl eq_refl).
Defined.
